(** * ai-pdf-extractor: schema normalizer, prompt synthesizer, document renderer

    A shallow embedding of [src/schemaLoader.ts] (generateFirstPagePrompt,
    buildFirstPageJsonSchema) and of the two renderers of [src/index.ts]
    (generateFirstPageMarkdown, generateInnerPagesMarkdown), with the
    properties the specification states about them; then of the code around
    them (loadSchema, loadConfig, convertPdfToImages, aggregateTokenUsage,
    the extraction of processPdf, generateMarkdown and the recovery of the
    statistics in regenerateMarkdownFiles), with properties read off the
    code.

    Modelling conventions.
    - A parsed JSON document is a [json] tree.  An object is the list of its
      own properties in enumeration order (the order of [Object.entries]);
      a JavaScript object never holds a key twice, which is [wf_json].
      [JSON.parse] defines every key as an own property, [__proto__]
      included; an assignment [o[k] = v] defines one for every key but
      [__proto__], which sets the prototype instead ([obj_set]).
    - JavaScript numbers are kept abstract: the development is parametric in
      the type [number] with its truthiness, its [ToString] and its strict
      equality.
    - [undefined] is the [None] of [option json]: it is what a property read
      yields for an absent key, and never a member of a JSON document.
    - Characters are those of [ascii]; the case mapping of [toUpperCase] is
      modelled on the ASCII letters.
    - A [TypeError] is the [Throw] of [result]: reading a property of
      [null], and converting to a string an object that has a property
      [toString] of its own ([ToString]).
    - The file system, the PDF library and the vision service are outside
      the model: what they return, or the error they raise, is an argument
      of the function that uses it.  The functions of the runtime on paths
      and numbers are the fields of [Runtime]. *)

From Stdlib Require Import List String Ascii Bool Arith ZArith Lia.
From Stdlib Require Import DecimalString DecimalNat.
Import ListNotations.
Open Scope string_scope.
Set Warnings "-register-all".

(** ** Errors *)

Inductive result (A : Type) : Type :=
| Ok (a : A)
| Throw (e : string).
Arguments Ok {A} a.
Arguments Throw {A} e.

Definition bind {A B : Type} (r : result A) (k : A -> result B) : result B :=
  match r with
  | Ok a => k a
  | Throw e => Throw e
  end.

Notation "x <- r ;; k" := (bind r (fun x => k))
  (at level 61, r at next level, right associativity).
Notation "' p <- r ;; k" := (bind r (fun x => let p := x in k))
  (at level 61, p pattern, r at next level, right associativity).

Definition returns {A : Type} (r : result A) : bool :=
  match r with Ok _ => true | Throw _ => false end.

(** A loop over [xs] whose body may throw: the first error ends it. *)
Fixpoint fold_result {A B : Type} (f : A -> B -> result A) (xs : list B)
  (acc : A) : result A :=
  match xs with
  | [] => Ok acc
  | x :: rest => acc' <- f acc x ;; fold_result f rest acc'
  end.

(** The lists that a sequence of steps yields, one after the other; the
    first error wins. *)
Fixpoint collect {A : Type} (steps : list (result (list A)))
  : result (list A) :=
  match steps with
  | [] => Ok []
  | step :: rest =>
      xs <- step ;;
      ys <- collect rest ;;
      Ok (xs ++ ys)%list
  end.

(** ** Strings *)

Definition nl : string := String "010" EmptyString.

(** [Array.prototype.join] on an array of strings. *)
Definition join (sep : string) (xs : list string) : string :=
  String.concat sep xs.

(** [String.prototype.includes]: some suffix of [s] starts with [sub]. *)
Fixpoint includes (sub s : string) : bool :=
  String.prefix sub s
  || match s with
     | EmptyString => false
     | String _ rest => includes sub rest
     end.

Fixpoint chars (s : string) : list string :=
  match s with
  | EmptyString => []
  | String c rest => String c EmptyString :: chars rest
  end.

(** The decimal property name of an array index. *)
Definition index_key (i : nat) : string :=
  NilEmpty.string_of_uint (Nat.to_uint i).

(** *** The label of a metadata field (src/index.ts, lines 43-46) *)

Definition is_upper (c : ascii) : bool :=
  ((65 <=? nat_of_ascii c) && (nat_of_ascii c <=? 90))%nat.

Definition is_lower (c : ascii) : bool :=
  ((97 <=? nat_of_ascii c) && (nat_of_ascii c <=? 122))%nat.

Definition toUpperCase (c : ascii) : ascii :=
  if is_lower c then ascii_of_nat (nat_of_ascii c - 32) else c.

Definition is_line_terminator (c : ascii) : bool :=
  ((nat_of_ascii c =? 10) || (nat_of_ascii c =? 13))%nat.

Definition is_space (c : ascii) : bool :=
  let n := nat_of_ascii c in
  (((9 <=? n) && (n <=? 13)) || (n =? 32))%nat.

(** [s.replace(/([A-Z])/g, " $1")]. *)
Fixpoint spaceBeforeUpper (s : string) : string :=
  match s with
  | EmptyString => EmptyString
  | String c rest =>
      if is_upper c then String " " (String c (spaceBeforeUpper rest))
      else String c (spaceBeforeUpper rest)
  end.

(** [s.replace(/^./, (str) => str.toUpperCase())]: the dot matches any first
    character but a line terminator. *)
Definition upperFirst (s : string) : string :=
  match s with
  | EmptyString => EmptyString
  | String c rest =>
      if is_line_terminator c then s else String (toUpperCase c) rest
  end.

Fixpoint trimStart (s : string) : string :=
  match s with
  | EmptyString => EmptyString
  | String c rest => if is_space c then trimStart rest else s
  end.

Fixpoint trimEnd (s : string) : string :=
  match s with
  | EmptyString => EmptyString
  | String c rest =>
      let rest' := trimEnd rest in
      if is_space c && String.eqb rest' "" then EmptyString
      else String c rest'
  end.

Definition trim (s : string) : string := trimEnd (trimStart s).

Definition fieldLabel (field : string) : string :=
  trim (upperFirst (spaceBeforeUpper field)).

(** The integers, to instantiate [number] with: their decimal printer and
    their truthiness. *)
Definition Z_to_string (z : Z) : string :=
  NilZero.string_of_int (Z.to_int z).

Definition Z_truthy (z : Z) : bool := negb (Z.eqb z 0).

(** Reading a decimal numeral back; [0] stands for what is no numeral. *)
Definition Z_of_string (s : string) : Z :=
  match NilZero.int_of_string s with
  | Some i => Z.of_int i
  | None => 0%Z
  end.

(** The digits of a natural number in groups of three, as the locale
    [en-US] prints them. *)
Fixpoint groupThousands (digits : string) : string :=
  match digits with
  | EmptyString => EmptyString
  | String c rest =>
      let n := String.length rest in
      String c
        (if ((0 <? n) && (n mod 3 =? 0))%nat
         then String "," (groupThousands rest)
         else groupThousands rest)
  end.

Fixpoint nodupb (ks : list string) : bool :=
  match ks with
  | [] => true
  | k :: rest => negb (existsb (String.eqb k) rest) && nodupb rest
  end.

(** *** Types of src/types.ts that hold no number *)

Record Author : Type := {
  author_name : string;
  email : string;
  phone : string
}.

Record SummaryParagraph : Type := {
  heading : string;
  content : string
}.

Record TableData : Type := {
  headers : list string;
  rows : list (list string)
}.

(** An optional, nullable field [x?: T | null]. *)
Inductive optional (A : Type) : Type :=
| Undefined
| Null
| Value (a : A).
Arguments Undefined {A}.
Arguments Null {A}.
Arguments Value {A} a.

(** *** The typed sections of generateFirstPageMarkdown (src/index.ts,
    lines 64-101)

    The function reads [authors], [bulletPoints] and [summaryParagraphs]
    through the casts [as Author[] | undefined], [as string[] | undefined]
    and [as SummaryParagraph[] | undefined]; the sections are modelled on
    values of these types, [None] for [undefined]. *)

Definition nonEmpty (s : string) : bool := negb (String.eqb s "").

(** Lines 69-73. *)
Definition authorLines (author : Author) : list string :=
  let nameLine := "- **" ++ author_name author ++ "**" in
  let emailLine := "  - Email: " ++ email author in
  let phoneLine := "  - Phone: " ++ phone author in
  ([nameLine]
   ++ (if nonEmpty (email author) then [emailLine] else [])
   ++ (if nonEmpty (phone author) then [phoneLine] else []))%list.

(** Lines 65-75. *)
Definition authorsLines (authors : option (list Author)) : list string :=
  match authors with
  | Some (a :: more) =>
      (["## Authors"; ""] ++ flat_map authorLines (a :: more) ++ [""])%list
  | _ => []
  end.

(** Lines 78-86. *)
Definition bulletPointsLines (bulletPoints : option (list string))
  : list string :=
  match bulletPoints with
  | Some (p :: more) =>
      (["## Key Highlights"; ""]
       ++ map (String.append "- ") (p :: more) ++ [""])%list
  | _ => []
  end.

(** Lines 94-99. *)
Definition summaryParagraphLines (para : SummaryParagraph) : list string :=
  let headingLine := "### " ++ heading para in
  ((if nonEmpty (heading para) then [headingLine; ""] else [])
   ++ [content para; ""])%list.

(** Lines 89-101. *)
Definition summaryLines (summaryParagraphs : option (list SummaryParagraph))
  : list string :=
  match summaryParagraphs with
  | Some (p :: more) =>
      (["## Summary"; ""] ++ flat_map summaryParagraphLines (p :: more))%list
  | _ => []
  end.

Section Extractor.

(** JavaScript numbers, abstractly. *)
Variable number : Type.
Variable number_truthy : number -> bool.        (* ToBoolean *)
Variable number_to_string : number -> string.   (* ToString *)
Variable number_eq_dec : forall a b : number, {a = b} + {a <> b}. (* === *)

(** ** JSON values and the JavaScript operations the program applies to them *)

Inductive json : Type :=
| JNull
| JBool (b : bool)
| JNum (n : number)
| JStr (s : string)
| JArr (xs : list json)
| JObj (o : list (string * json)).

Definition object : Type := list (string * json).

(** Own-property read [o[k]] on an object. *)
Fixpoint lookup (k : string) (o : object) : option json :=
  match o with
  | [] => None
  | (k', v) :: rest => if String.eqb k' k then Some v else lookup k rest
  end.

(** Defining the own property [k] of [o]: overwrite in place, or add as the
    last property (where a new key lands when keys arrive in enumeration
    order, as they do in the loops below). *)
Fixpoint define_own (k : string) (v : json) (o : object) : object :=
  match o with
  | [] => [(k, v)]
  | (k', v') :: rest =>
      if String.eqb k' k then (k', v) :: rest
      else (k', v') :: define_own k v rest
  end.

(** Assignment [o[k] = v] on a plain object.  Every key defines an own
    property but [__proto__], the accessor that [Object.prototype] provides:
    the assignment calls its setter, which makes [v] the prototype of [o]
    when [v] is an object (what the loops below assign) and adds no
    property.  Nothing reads a property through the prototype of an object
    built here ([Object.entries], the spread and [JSON.stringify] see own
    properties only), so the prototype is not recorded. *)
Definition obj_set (k : string) (v : json) (o : object) : object :=
  if String.eqb k "__proto__" then o else define_own k v o.

(** [delete o[k]]. *)
Definition obj_delete (k : string) (o : object) : object :=
  filter (fun kv => negb (String.eqb (fst kv) k)) o.

Definition has_key (k : string) (o : object) : bool :=
  existsb (fun kv => String.eqb (fst kv) k) o.

Fixpoint indexed_from (i : nat) (xs : list json) : object :=
  match xs with
  | [] => []
  | x :: rest => (index_key i, x) :: indexed_from (S i) rest
  end.

(** The own enumerable string-keyed properties of a value, in enumeration
    order: what [Object.entries(v)] lists and what [{...v}] copies.  A
    string exposes its characters and an array its elements under their
    indices; numbers and booleans have none.  Spreading [null] copies
    nothing ([Object.entries] is only applied to truthy values here). *)
Definition own_entries (v : json) : object :=
  match v with
  | JObj o => o
  | JArr xs => indexed_from 0 xs
  | JStr s => indexed_from 0 (map JStr (chars s))
  | JNull | JBool _ | JNum _ => []
  end.

Definition Object_entries : json -> object := own_entries.
Definition Object_keys (v : json) : list string := map fst (own_entries v).
Definition spread : json -> object := own_entries.

(** [ToBoolean]. *)
Definition truthy (v : json) : bool :=
  match v with
  | JNull => false
  | JBool b => b
  | JNum n => number_truthy n
  | JStr s => negb (String.eqb s "")
  | JArr _ | JObj _ => true
  end.

(** The value of [x] when it is truthy: the left operand that [x || d] and
    [x && e] keep or drop. *)
Definition truthy_val (x : option json) : option json :=
  match x with
  | Some v => if truthy v then Some v else None
  | None => None
  end.

(** [x || d]. *)
Definition or_else (x : option json) (d : json) : json :=
  match truthy_val x with
  | Some v => v
  | None => d
  end.

(** [x === "s"]. *)
Definition is_str (s : string) (x : option json) : bool :=
  match x with
  | Some (JStr t) => String.eqb t s
  | _ => false
  end.

(** The property reads [v.type], [v.items], [v.properties] that the schema
    code performs on a value of unknown shape.  Reading from [null] throws;
    an object answers with its own property; strings, arrays, numbers and
    booleans carry none of these names (neither own nor inherited). *)
Definition member (v : json) (k : string) : option json :=
  match v with
  | JObj o => lookup k o
  | _ => None
  end.

Definition get_prop (v : json) (k : string) : result (option json) :=
  match v with
  | JNull => Throw ("TypeError: Cannot read properties of null (reading '" ++ k ++ "')")
  | _ => Ok (member v k)
  end.

(** [ToString], as applied by template literals and [String(v)].  An
    object is converted by its method [toString], which [Object.prototype]
    provides and which answers [[object Object]]; an own property [toString]
    hides the method by a value that is no function (a parsed document holds
    none), [valueOf] yields no primitive value either, and the conversion
    throws a TypeError.  An array prints its elements in order, joined by
    commas, [null] elements as the empty string. *)
Fixpoint ToString (v : json) : result string :=
  match v with
  | JNull => Ok "null"
  | JBool true => Ok "true"
  | JBool false => Ok "false"
  | JNum n => Ok (number_to_string n)
  | JStr s => Ok s
  | JArr xs =>
      parts <-
        (fix elements (xs : list json) : result (list string) :=
           match xs with
           | [] => Ok []
           | x :: rest =>
               part <- match x with JNull => Ok "" | _ => ToString x end ;;
               more <- elements rest ;;
               Ok (part :: more)
           end) xs ;;
      Ok (join "," parts)
  | JObj o =>
      if has_key "toString" o
      then Throw "TypeError: Cannot convert object to primitive value"
      else Ok "[object Object]"
  end.

(** Every object of the tree holds each key once. *)
Fixpoint wf_json (v : json) : bool :=
  match v with
  | JArr xs => forallb wf_json xs
  | JObj o => nodupb (map fst o) && forallb (fun kv => wf_json (snd kv)) o
  | _ => true
  end.

(** ** src/schemaLoader.ts *)

Record SchemaDefinition : Type := {
  name : string;
  firstPageSchema : json;
  innerPagesSchema : json;
  firstPagePrompt : string
}.

(** generateFirstPagePrompt (lines 48-65). *)
Definition reportTypeLabel (schemaName : string) : string :=
  if includes "sector" schemaName then "sector" else "stock research".

Definition promptTemplate (reportType fieldsList : string) : string :=
  "You are analyzing the first page of a " ++ reportType
  ++ " report. Extract all information from this image." ++ nl
  ++ nl
  ++ "Extract the following fields:" ++ nl
  ++ fieldsList ++ nl
  ++ nl
  ++ "Instructions:" ++ nl
  ++ "- Extract all text exactly as shown" ++ nl
  ++ "- For dates, format as YYYY-MM-DD" ++ nl
  ++ "- For numbers, extract as numeric values" ++ nl
  ++ "- For arrays (like authors, bulletPoints), extract all items" ++ nl
  ++ "- If a field is not visible, use an appropriate default value".

Definition generateFirstPagePrompt (schema : json) (schemaName : string)
  : result string :=
  p <- get_prop schema "properties" ;;
  let properties := or_else p (JObj []) in
  let fieldsList :=
    join nl (map (fun key => "- " ++ key) (Object_keys properties)) in
  let reportType := reportTypeLabel schemaName in
  Ok (promptTemplate reportType fieldsList).

(** buildFirstPageJsonSchema (lines 70-141). *)

(** The two inner loops (lines 86-91 and 108-113): every nested property is
    spread into a fresh object that loses its own [format]. *)
Definition nestedStep (acc : object * list string) (entry : string * json)
  : object * list string :=
  let '(nestedProps, nestedRequired) := acc in
  let '(nestedKey, nestedValue) := entry in
  let nestedProp := obj_delete "format" (spread nestedValue) in
  (obj_set nestedKey (JObj nestedProp) nestedProps,
   (nestedRequired ++ [nestedKey])%list).

Definition nestedLoop (properties : json) : object * list string :=
  fold_left nestedStep (Object_entries properties) ([], []).

(** The object literal of lines 94-99, 114-119 and 133-138. *)
Definition strictObject (props : object) (required : list string) : json :=
  JObj [("type", JStr "object");
        ("properties", JObj props);
        ("required", JArr (map JStr required));
        ("additionalProperties", JBool false)].

(** Lines 120-124. *)
Definition cleanProp (prop : json) : json :=
  JObj (obj_delete "format" (spread prop)).

(** The body of the outer loop (lines 78-124): the value stored under
    [strictProperties[key]]. *)
Definition strictProperty (prop : json) : result json :=
  ty <- get_prop prop "type" ;;
  if is_str "array" ty then
    it <- get_prop prop "items" ;;
    match truthy_val it with
    | Some items =>
        ity <- get_prop items "type" ;;
        ips <- (if is_str "object" ity then get_prop items "properties"
                else Ok None) ;;
        match truthy_val ips with
        | Some itemProperties =>
            let '(nestedProps, nestedRequired) := nestedLoop itemProperties in
            Ok (JObj [("type", JStr "array");
                      ("items", strictObject nestedProps nestedRequired)])
        | None => Ok (JObj (spread prop))
        end
    | None => Ok (cleanProp prop)
    end
  else if is_str "object" ty then
    ps <- get_prop prop "properties" ;;
    match truthy_val ps with
    | Some properties =>
        let '(nestedProps, nestedRequired) := nestedLoop properties in
        Ok (strictObject nestedProps nestedRequired)
    | None => Ok (cleanProp prop)
    end
  else Ok (cleanProp prop).

(** The outer loop (lines 77-126), over the entries still to visit. *)
Fixpoint propertiesLoop (entries : object) (acc : object * list string)
  : result (object * list string) :=
  match entries with
  | [] => Ok acc
  | (key, value) :: rest =>
      let '(strictProperties, required) := acc in
      p <- strictProperty value ;;
      propertiesLoop rest (obj_set key p strictProperties, (required ++ [key])%list)
  end.

(** [schema.firstPageSchema.properties || {}] (line 71). *)
Definition declaredProperties (schema : SchemaDefinition) : result json :=
  p <- get_prop (firstPageSchema schema) "properties" ;;
  Ok (or_else p (JObj [])).

Definition responseFormat (schema : json) : json :=
  JObj [("type", JStr "json_schema");
        ("json_schema",
         JObj [("name", JStr "first_page_response");
               ("strict", JBool true);
               ("schema", schema)])].

(** The object under [json_schema.schema] (lines 71-126 and 133-138). *)
Definition strictSchema (schema : SchemaDefinition) : result json :=
  properties <- declaredProperties schema ;;
  ' (strictProperties, required) <-
    propertiesLoop (Object_entries properties) ([], []) ;;
  Ok (strictObject strictProperties required).

Definition buildFirstPageJsonSchema (schema : SchemaDefinition) : result json :=
  s <- strictSchema schema ;;
  Ok (responseFormat s).

(** *** Vocabulary for the properties of the normalizer *)

(** The declared first-page properties, when the first-page node is not
    [null]. *)
Definition rawProperties (schema : SchemaDefinition) : json :=
  or_else (member (firstPageSchema schema) "properties") (JObj []).

(** The test [v.type === "object" && v.properties] (lines 83 and 104),
    with the value of [v.properties] when it passes. *)
Definition objectProperties (v : json) : option json :=
  if is_str "object" (member v "type") then truthy_val (member v "properties")
  else None.

(** The test [v.type === "array" && v.items] (line 81), with the value of
    [v.items] when it passes. *)
Definition arrayItems (v : json) : option json :=
  if is_str "array" (member v "type") then truthy_val (member v "items")
  else None.

(** The branch of the outer loop body that a property value takes. *)
Inductive shape : Type :=
| ArrayOfObjects (itemProperties : json)
| ArrayOther
| NestedObject (properties : json)
| Leaf.

Definition classify (prop : json) : shape :=
  match arrayItems prop with
  | Some items =>
      match objectProperties items with
      | Some itemProperties => ArrayOfObjects itemProperties
      | None => ArrayOther
      end
  | None =>
      match objectProperties prop with
      | Some properties => NestedObject properties
      | None => Leaf
      end
  end.

Definition cleanEntry (entry : string * json) : string * json :=
  (fst entry, cleanProp (snd entry)).

(** The names that an assignment turns into an own property: all but
    [__proto__]. *)
Definition ordinary (k : string) : bool := negb (String.eqb k "__proto__").

(** The entries whose assignment, key by key, defines an own property. *)
Definition declared (entries : object) : object :=
  filter (fun entry => ordinary (fst entry)) entries.

(** What [strictProperty] returns on a value that is not [null]. *)
Definition normalized (prop : json) : json :=
  match classify prop with
  | ArrayOfObjects itemProperties =>
      let entries := Object_entries itemProperties in
      JObj [("type", JStr "array");
            ("items",
             strictObject (map cleanEntry (declared entries)) (map fst entries))]
  | ArrayOther => JObj (spread prop)
  | NestedObject properties =>
      let entries := Object_entries properties in
      strictObject (map cleanEntry (declared entries)) (map fst entries)
  | Leaf => cleanProp prop
  end.

Definition normEntry (entry : string * json) : string * json :=
  (fst entry, normalized (snd entry)).





Definition is_null (v : json) : bool :=
  match v with JNull => true | _ => false end.

Definition not_null (entry : string * json) : Prop := snd entry <> JNull.

(** The node [v] carries a [format] keyword of its own. *)
Definition own_format (v : json) : bool := has_key "format" (own_entries v).

(** Some schema node of the tree carries a [format] keyword.  The keys of a
    [properties] map are field names, not keywords; everything else is
    searched. *)
Fixpoint has_format_keyword (node : json) : bool :=
  match node with
  | JObj o =>
      has_key "format" o
      || existsb
           (fun kv =>
              if String.eqb (fst kv) "properties" then
                match snd kv with
                | JObj fields =>
                    existsb (fun f => has_format_keyword (snd f)) fields
                | JArr xs => existsb has_format_keyword xs
                | _ => false
                end
              else has_format_keyword (snd kv))
           o
  | JArr xs => existsb has_format_keyword xs
  | _ => false
  end.


(** ** src/index.ts *)

(** *** generateFirstPageMarkdown, lines 12-104

    The title, the subtitle and the metadata table read the untyped
    first-page record; the three typed sections follow them. *)

(** Lines 16-18. *)
Definition titleLines (firstPage : object) : result (list string) :=
  let title :=
    or_else (lookup "reportTitle" firstPage)
      (or_else (lookup "title" firstPage) (JStr "Report")) in
  heading <- ToString title ;;
  Ok ["# " ++ heading; ""].

(** Lines 21-24. *)
Definition subtitleLines (firstPage : object) : result (list string) :=
  match truthy_val (lookup "reportSubTitle" firstPage) with
  | Some subtitle =>
      heading <- ToString subtitle ;;
      Ok ["## " ++ heading; ""]
  | None => Ok []
  end.

(** Lines 27-38. *)
Definition metadataFields : list string :=
  ["reportType"; "reportDate"; "companyName"; "sectorName"; "bloombergCode";
   "rating"; "previousRating"; "targetPrice"; "marketPrice"; "upsideDownside"].

(** The body of the loop of lines 41-53. *)
Definition metadataStep (firstPage : object)
  (displayMetadata : list (string * string)) (field : string)
  : result (list (string * string)) :=
  match lookup field firstPage with
  | None => Ok displayMetadata
  | Some JNull => Ok displayMetadata
  | Some v =>
      let label := fieldLabel field in
      value <- ToString v ;;
      let value :=
        if String.eqb field "upsideDownside" then value ++ "%" else value in
      Ok (displayMetadata ++ [(label, value)])%list
  end.

(** Lines 40-53. *)
Definition displayMetadata (firstPage : object)
  : result (list (string * string)) :=
  fold_result (metadataStep firstPage) metadataFields [].

Definition metadataRow (row : string * string) : string :=
  "| " ++ fst row ++ " | " ++ snd row ++ " |".

(** Lines 55-62, on the rows of lines 40-53. *)
Definition metadataLines (firstPage : object) : result (list string) :=
  rows <- displayMetadata firstPage ;;
  if (0 <? List.length rows)%nat then
    Ok (["| Field | Value |"; "|-------|-------|"]
        ++ map metadataRow rows ++ [""])%list
  else Ok [].

(** The function, with the three cast fields of [firstPage] passed as the
    typed values the casts declare. *)
Definition generateFirstPageMarkdown (firstPage : object)
  (authors : option (list Author))
  (bulletPoints : option (list string))
  (summaryParagraphs : option (list SummaryParagraph))
  : result (list string) :=
  title <- titleLines firstPage ;;
  subtitle <- subtitleLines firstPage ;;
  metadata <- metadataLines firstPage ;;
  Ok (title ++ subtitle ++ metadata
      ++ authorsLines authors
      ++ bulletPointsLines bulletPoints
      ++ summaryLines summaryParagraphs)%list.

(** *** generateInnerPagesMarkdown, lines 109-196 *)

Record InnerPageParagraph : Type := {
  style : string;
  text : optional string;
  table : optional TableData;
  pageNumber : option number
}.

(** Lines 119-122. *)
Definition pageMarker (page : number) : list string :=
  [""; "Page " ++ number_to_string page;
   "-----------------------------------------"; ""].

Definition tableRow (cells : list string) : string :=
  "| " ++ join " | " cells ++ " |".

(** Lines 175-183. *)
Definition tableLines (t : TableData) : list string :=
  if (0 <? List.length (headers t))%nat then
    ([tableRow (headers t);
      tableRow (map (fun _ => "---") (headers t))]
     ++ map tableRow (rows t) ++ [""])%list
  else [].

(** The [switch] of lines 124-191: the lines one block pushes. *)
Definition styleLines (para : InnerPageParagraph) : list string :=
  let text := match text para with Value t => t | _ => "" end in
  let s := style para in
  if String.eqb s "page header" then []
  else if String.eqb s "chapter heading" then ["## " ++ text; ""]
  else if String.eqb s "subheading 1" then ["### " ++ text; ""]
  else if String.eqb s "subheading 2" then ["#### " ++ text; ""]
  else if String.eqb s "body text" then [text; ""]
  else if String.eqb s "callout" then ["> **" ++ text ++ "**"; ""]
  else if String.eqb s "exhibit title" then ["**" ++ text ++ "**"; ""]
  else if String.eqb s "exhibit source" then ["*" ++ text ++ "*"; ""]
  else if String.eqb s "bullet level 1" then ["- " ++ text]
  else if String.eqb s "bullet level 2" then ["  - " ++ text]
  else if String.eqb s "bullet level 3" then ["    - " ++ text]
  else if String.eqb s "page footer" then []
  else if String.eqb s "footnote" then ["<sup>" ++ text ++ "</sup>"; ""]
  else if String.eqb s "table" then
    match table para with
    | Value t => tableLines t
    | _ => []
    end
  else if negb (String.eqb text "") then [text; ""]
  else [].

(** [page !== currentPage]. *)
Definition differs (page : number) (currentPage : option number) : bool :=
  match currentPage with
  | None => true
  | Some c => if number_eq_dec page c then false else true
  end.

(** The marker a block triggers, if any (line 117). *)
Definition markerOf (currentPage : option number) (para : InnerPageParagraph)
  : option number :=
  match pageNumber para with
  | Some page => if differs page currentPage then Some page else None
  | None => None
  end.

(** One iteration of the loop of lines 115-192, on the state
    [(lines, currentPage)]. *)
Definition pageStep (st : list string * option number)
  (para : InnerPageParagraph) : list string * option number :=
  let '(lines, currentPage) := st in
  let '(lines, currentPage) :=
    match markerOf currentPage para with
    | Some page => ((lines ++ pageMarker page)%list, Some page)
    | None => (lines, currentPage)
    end in
  ((lines ++ styleLines para)%list, currentPage).

Definition generateInnerPagesMarkdown
  (innerPagesParagraphs : list InnerPageParagraph) : list string :=
  if (0 <? List.length innerPagesParagraphs)%nat then
    fst (fold_left pageStep innerPagesParagraphs ([], None))
  else [].

(** *** Vocabulary for the properties of the renderers *)

(** The allowlist with the labels the specification describes: the field
    name split at its inner capitals into capitalized words. *)
Definition metadataLabels : list (string * string) :=
  [("reportType", "Report Type"); ("reportDate", "Report Date");
   ("companyName", "Company Name"); ("sectorName", "Sector Name");
   ("bloombergCode", "Bloomberg Code"); ("rating", "Rating");
   ("previousRating", "Previous Rating"); ("targetPrice", "Target Price");
   ("marketPrice", "Market Price"); ("upsideDownside", "Upside Downside")].

(** The row of one allowlisted field: none unless the field is present and
    not [null]. *)
Definition metadataRowOf (firstPage : object) (entry : string * string)
  : result (list (string * string)) :=
  match lookup (fst entry) firstPage with
  | Some v =>
      if is_null v then Ok []
      else
        value <- ToString v ;;
        Ok [(snd entry,
             value
             ++ (if String.eqb (fst entry) "upsideDownside" then "%" else ""))]
  | None => Ok []
  end.

(** The page numbers that are present, in block order. *)
Definition present_pages (blocks : list InnerPageParagraph) : list number :=
  flat_map (fun b => match pageNumber b with Some n => [n] | None => [] end)
    blocks.

(** The number of maximal runs of equal adjacent elements. *)
Fixpoint runs (pages : list number) : nat :=
  match pages with
  | [] => 0
  | x :: rest =>
      match rest with
      | [] => 1
      | y :: _ => if number_eq_dec y x then runs rest else S (runs rest)
      end
  end.

(** The runs that start after a page [previous]. *)
Fixpoint runs_after (previous : option number) (pages : list number) : nat :=
  match pages with
  | [] => 0
  | x :: rest =>
      (if differs x previous then 1 else 0) + runs_after (Some x) rest
  end.

(** The marker each block triggers, along the loop. *)
Fixpoint markers (currentPage : option number)
  (blocks : list InnerPageParagraph) : list (option number) :=
  match blocks with
  | [] => []
  | b :: rest =>
      let m := markerOf currentPage b in
      m :: markers (match m with Some page => Some page | None => currentPage end)
             rest
  end.

Definition markerLines (m : option number) : list string :=
  match m with
  | Some page => pageMarker page
  | None => []
  end.

Definition is_some (m : option number) : bool :=
  match m with Some _ => true | None => false end.

Definition blockLines (mb : option number * InnerPageParagraph) : list string :=
  (markerLines (fst mb) ++ styleLines (snd mb))%list.

(** The text of a block is [null], absent or empty. *)
Definition text_missing (b : InnerPageParagraph) : bool :=
  match text b with
  | Value t => String.eqb t ""
  | _ => true
  end.

(** ** Example documents *)

Definition block (s : string) (t : optional string) (page : option number)
  : InnerPageParagraph :=
  {| style := s; text := t; table := Null; pageNumber := page |}.

Definition tableBlock (t : TableData) : InnerPageParagraph :=
  {| style := "table"; text := Null; table := Value t; pageNumber := None |}.


Definition sampleTable : TableData :=
  {| headers := ["Year"; "Revenue"; "EPS"];
     rows := [["2023"; "10"; "1.2"]; ["2024"]; ["2025"; "12"; "1.5"; "n/a"]] |}.

Definition schemaOf (firstPage : json) : SchemaDefinition :=
  {| name := "stock_report";
     firstPageSchema := firstPage;
     innerPagesSchema := JObj [];
     firstPagePrompt := "" |}.

Definition stringType : json := JObj [("type", JStr "string")].

Definition emailType : json :=
  JObj [("type", JStr "string"); ("format", JStr "email")].

(** The [authors] scenario of the specification. *)
Definition authorsSchema : SchemaDefinition :=
  schemaOf
    (JObj [("properties",
            JObj [("authors",
                   JObj [("type", JStr "array");
                         ("items",
                          JObj [("type", JStr "object");
                                ("properties",
                                 JObj [("name", stringType);
                                       ("email", emailType);
                                       ("phone", stringType)])])])])]).

Definition authorsNormalized : json :=
  strictObject
    [("authors",
      JObj [("type", JStr "array");
            ("items",
             strictObject
               [("name", stringType); ("email", stringType);
                ("phone", stringType)]
               ["name"; "email"; "phone"])])]
    ["authors"].

(** An object nested three levels deep: [contact.address.mail]. *)
Definition deepSchema : SchemaDefinition :=
  schemaOf
    (JObj [("properties",
            JObj [("contact",
                   JObj [("type", JStr "object");
                         ("properties",
                          JObj [("address",
                                 JObj [("type", JStr "object");
                                       ("properties",
                                        JObj [("mail", emailType)])])])])])]).

(** An array of strings that carries a [format] of its own. *)
Definition tagsSchema : SchemaDefinition :=
  schemaOf
    (JObj [("properties",
            JObj [("tags",
                   JObj [("type", JStr "array");
                         ("items", stringType);
                         ("format", JStr "csv")])])]).

Definition deepNormalized : json :=
  strictObject
    [("contact",
      strictObject
        [("address",
          JObj [("type", JStr "object");
                ("properties", JObj [("mail", emailType)])])]
        ["address"])]
    ["contact"].

Definition tagsNormalized : json :=
  strictObject
    [("tags",
      JObj [("type", JStr "array"); ("items", stringType);
            ("format", JStr "csv")])]
    ["tags"].




(** A property declared as [null]. *)
Definition nullPropertySchema : SchemaDefinition :=
  schemaOf (JObj [("properties", JObj [("title", JNull)])]).

(** A first-page node without a [properties] key. *)
Definition emptySchema : SchemaDefinition := schemaOf (JObj []).

(** * The rest of the program *)

(** ** The runtime

    The functions of JavaScript and Node that the rest of the program calls
    and that the development keeps abstract, with the arithmetic of
    [number]. *)
Record Runtime : Type := {
  path_basename : string -> string -> string;   (* path.basename(p, ext) *)
  path_resolve : string -> string;              (* path.resolve(p) *)
  path_join : list string -> string;            (* path.join(...parts) *)
  number_of_nat : nat -> number;                (* a counter, index or literal *)
  number_add : number -> number -> number;      (* a + b *)
  number_toLocaleString : number -> string;     (* n.toLocaleString() *)
  number_toFixed4 : number -> string;           (* n.toFixed(4) *)
  number_parseInt : string -> number;           (* parseInt(s) *)
  number_parseInt10 : string -> number;         (* parseInt(s, 10) *)
  number_parseFloat : string -> number          (* parseFloat(s) *)
}.

(** ** src/schemaLoader.ts: loadSchema (lines 14-43) *)

(** The optional chain [x?.k]: [undefined] when [x] is [null] or
    [undefined]. *)
Definition optional_get (x : option json) (k : string) : result (option json) :=
  match x with
  | None => Ok None
  | Some JNull => Ok None
  | Some v => get_prop v k
  end.

(** The body of the [try] (lines 20-39), on the parsed document. *)
Definition schemaDefinitionOf (rt : Runtime) (schemaFileName : string)
  (schema : json) : result SchemaDefinition :=
  let schemaName := path_basename rt schemaFileName ".json" in
  p <- get_prop schema "properties" ;;
  fp <- optional_get p "firstPage" ;;
  let firstPage := or_else fp (JObj []) in
  p' <- get_prop schema "properties" ;;
  ip <- optional_get p' "innerPagesParagraphs" ;;
  let innerPages := or_else ip (JObj []) in
  prompt <- generateFirstPagePrompt firstPage schemaName ;;
  Ok {| name := schemaName;
        firstPageSchema := firstPage;
        innerPagesSchema := innerPages;
        firstPagePrompt := prompt |}.

(** loadSchema, given what reading and parsing the file produced: the
    document, or the error that [fs.readFile] or [JSON.parse] threw.  The
    [catch] wraps every error. *)
Definition loadSchema (rt : Runtime) (schemaFileName : string)
  (parsed : result json) : result SchemaDefinition :=
  match (schema <- parsed ;; schemaDefinitionOf rt schemaFileName schema) with
  | Ok definition => Ok definition
  | Throw error =>
      Throw ("Failed to load schema from " ++ schemaFileName ++ ": " ++ error)
  end.


(** ** Vocabulary for the rest of the renderers *)

(** The value of [currentPage] after the loop has visited [blocks]. *)
Fixpoint pageAfter (currentPage : option number)
  (blocks : list InnerPageParagraph) : option number :=
  match blocks with
  | [] => currentPage
  | b :: rest =>
      pageAfter
        (match markerOf currentPage b with
         | Some page => Some page
         | None => currentPage
         end)
        rest
  end.

(** The last page number that is present among [blocks], else [previous]. *)
Definition lastPage (previous : option number)
  (blocks : list InnerPageParagraph) : option number :=
  match rev (present_pages blocks) with
  | page :: _ => Some page
  | [] => previous
  end.

Definition withRows (t : TableData) (newRows : list (list string)) : TableData :=
  {| headers := headers t; rows := newRows |}.


(** ** src/config.ts, from line 35 (the image analyzer): token usage *)

Record TokenUsage : Type := {
  inputTokens : number;
  outputTokens : number;
  totalTokens : number
}.

(** The callback of [reduce] (lines 65-69). *)
Definition addUsage (rt : Runtime) (acc usage : TokenUsage) : TokenUsage :=
  {| inputTokens := number_add rt (inputTokens acc) (inputTokens usage);
     outputTokens := number_add rt (outputTokens acc) (outputTokens usage);
     totalTokens := number_add rt (totalTokens acc) (totalTokens usage) |}.

Definition zeroUsage (rt : Runtime) : TokenUsage :=
  {| inputTokens := number_of_nat rt 0;
     outputTokens := number_of_nat rt 0;
     totalTokens := number_of_nat rt 0 |}.

(** aggregateTokenUsage (lines 63-72). *)
Definition aggregateTokenUsage (rt : Runtime) (usages : list TokenUsage)
  : TokenUsage :=
  fold_left (addUsage rt) usages (zeroUsage rt).

Record FirstPageResult : Type := {
  data : object;
  firstTokenUsage : TokenUsage
}.

Record InnerPageResult : Type := {
  paragraphs : list InnerPageParagraph;
  tokenUsage : TokenUsage
}.

(** ** src/pdfProcessor.ts: convertPdfToImages (lines 16-46)

    The function awaits [fs.mkdir], [pdf()], every step of the page iterator
    and an [fs.writeFile] per page.  [converted] is what these calls came
    to: the images that the PDF library yielded, page after page, when none
    of them rejected, else the error of the first that did, with which the
    function rejects in its turn. *)

(** The loop of lines 32-38, from the counter [pageNumber] on. *)
Fixpoint imagePathsFrom {Image : Type} (rt : Runtime) (outputDir : string)
  (page : nat) (images : list Image) : list string :=
  match images with
  | [] => []
  | _ :: rest =>
      path_join rt
        [outputDir; number_to_string (number_of_nat rt page) ++ ".png"]
      :: imagePathsFrom rt outputDir (S page) rest
  end.

Record ConversionResult : Type := {
  pdfName : string;
  pagesDirectory : string;
  totalPages : nat;
  imagePaths : list string
}.

Definition convertPdfToImages {Image : Type} (rt : Runtime)
  (outputBaseDirectory pdfPath : string) (converted : result (list Image))
  : result ConversionResult :=
  let base := path_basename rt pdfPath ".pdf" in
  let outputDir := path_join rt [outputBaseDirectory; base; "pages"] in
  images <- converted ;;
  let paths := imagePathsFrom rt outputDir 1 images in
  Ok {| pdfName := base;
        pagesDirectory := outputDir;
        totalPages := List.length paths;
        imagePaths := paths |}.

(** ** src/index.ts: processPdf (lines 319-415), the extraction

    The two analyzers stand for the calls to the vision service: each
    returns its result or throws.  What follows the extraction (creating
    the directory of the report, writing the JSON file, rendering and
    writing the Markdown file) is not part of [extractReport]. *)

Record Report : Type := {
  firstPage : object;
  innerPagesParagraphs : list InnerPageParagraph
}.

(** [{ ...p, pageNumber }] (line 356). *)
Definition withPageNumber (page : number) (p : InnerPageParagraph)
  : InnerPageParagraph :=
  {| style := style p; text := text p; table := table p;
     pageNumber := Some page |}.

(** The loop of lines 349-363, from the index [i] on, over the image paths
    still to visit; the state is
    [(innerPagesParagraphs, allTokenUsages)]. *)
Fixpoint innerPagesLoop (rt : Runtime)
  (analyzeInnerPage : string -> number -> result InnerPageResult)
  (i : nat) (paths : list string)
  (acc : list InnerPageParagraph * list TokenUsage)
  : list InnerPageParagraph * list TokenUsage :=
  match paths with
  | [] => acc
  | imagePath :: rest =>
      let page := number_of_nat rt (i + 1) in
      let acc' :=
        match analyzeInnerPage imagePath page with
        | Ok result =>
            ((fst acc ++ map (withPageNumber page) (paragraphs result))%list,
             (snd acc ++ [tokenUsage result])%list)
        | Throw _ => acc
        end in
      innerPagesLoop rt analyzeInnerPage (S i) rest acc'
  end.

(** Lines 331-382: the report and the total token usage, or the error
    that the [catch] of line 405 turns into a failed result. *)
Definition extractReport {Image : Type} (rt : Runtime)
  (analyzeFirstPage : string -> result FirstPageResult)
  (analyzeInnerPage : string -> number -> result InnerPageResult)
  (outputBaseDirectory pdfPath : string) (converted : result (list Image))
  : result (Report * TokenUsage) :=
  conversionResult <-
    convertPdfToImages rt outputBaseDirectory pdfPath converted ;;
  match imagePaths conversionResult with
  | [] => Throw "No pages were converted from PDF"
  | firstPageImage :: innerImages =>
      firstPageResult <- analyzeFirstPage firstPageImage ;;
      let '(blocks, allTokenUsages) :=
        innerPagesLoop rt analyzeInnerPage 1 innerImages
          ([], [firstTokenUsage firstPageResult]) in
      Ok ({| firstPage := data firstPageResult;
             innerPagesParagraphs := blocks |},
          aggregateTokenUsage rt allTokenUsages)
  end.

(** *** Vocabulary for the extraction *)

(** The inner pages with the image analysed for each: page [i + 2] for the
    image at index [i + 1]. *)
Definition innerPageInputs (from : nat) (paths : list string)
  : list (nat * string) :=
  combine (seq from (List.length paths)) paths.

(** The blocks one inner page contributes. *)
Definition pageBlocks (rt : Runtime)
  (analyzeInnerPage : string -> number -> result InnerPageResult)
  (input : nat * string) : list InnerPageParagraph :=
  match analyzeInnerPage (snd input) (number_of_nat rt (fst input)) with
  | Ok result =>
      map (withPageNumber (number_of_nat rt (fst input))) (paragraphs result)
  | Throw _ => []
  end.

Definition pageUsage (rt : Runtime)
  (analyzeInnerPage : string -> number -> result InnerPageResult)
  (input : nat * string) : list TokenUsage :=
  match analyzeInnerPage (snd input) (number_of_nat rt (fst input)) with
  | Ok result => [tokenUsage result]
  | Throw _ => []
  end.

Definition hasBlocks (rt : Runtime)
  (analyzeInnerPage : string -> number -> result InnerPageResult)
  (input : nat * string) : bool :=
  match pageBlocks rt analyzeInnerPage input with
  | [] => false
  | _ :: _ => true
  end.

(** The page numbers of the markers pushed. *)
Definition emitted (ms : list (option number)) : list number :=
  flat_map (fun m => match m with Some page => [page] | None => [] end) ms.


(** ** src/index.ts: generateMarkdown (lines 201-233) *)

(** Lines 210-221.  The heading holds a character outside ASCII, kept as
    its UTF-8 bytes; the patterns searched below are ASCII. *)
Definition statisticsLines (rt : Runtime) (schemaName : string)
  (usage : TokenUsage) (estimatedCostUSD : number) : list string :=
  ["## 📊 Processing Statistics";
   "";
   "| Metric | Value |";
   "|--------|-------|";
   "| Schema | " ++ schemaName ++ " |";
   "| Input Tokens | " ++ number_toLocaleString rt (inputTokens usage) ++ " |";
   "| Output Tokens | " ++ number_toLocaleString rt (outputTokens usage) ++ " |";
   "| Total Tokens | " ++ number_toLocaleString rt (totalTokens usage) ++ " |";
   "| **Estimated Cost (USD)** | **$" ++ number_toFixed4 rt estimatedCostUSD
   ++ "** |";
   "";
   "---";
   ""].

(** The lines after the statistics (lines 224-230). *)
Definition documentLines (report : Report)
  (authors : option (list Author))
  (bulletPoints : option (list string))
  (summaryParagraphs : option (list SummaryParagraph))
  : result (list string) :=
  firstPageLines <-
    generateFirstPageMarkdown (firstPage report) authors bulletPoints
      summaryParagraphs ;;
  Ok (["Page 1"; "-----------------------------------------"; ""]
      ++ firstPageLines
      ++ generateInnerPagesMarkdown (innerPagesParagraphs report))%list.

Definition generateMarkdown (rt : Runtime) (report : Report)
  (authors : option (list Author))
  (bulletPoints : option (list string))
  (summaryParagraphs : option (list SummaryParagraph))
  (schemaName : string) (usage : TokenUsage) (estimatedCostUSD : number)
  : result string :=
  document <- documentLines report authors bulletPoints summaryParagraphs ;;
  Ok (join nl
        (statisticsLines rt schemaName usage estimatedCostUSD
         ++ document)%list).

(** ** src/index.ts: regenerateMarkdownFiles (lines 255-314), one report *)

(** The rest of [s] after the literal text [literal], when [s] starts with
    it. *)
Fixpoint dropPrefix (literal s : string) : option string :=
  match literal with
  | EmptyString => Some s
  | String a literal' =>
      match s with
      | EmptyString => None
      | String b s' => if Ascii.eqb a b then dropPrefix literal' s' else None
      end
  end.

(** The longest prefix of [s] made of characters of the class [cls]. *)
Fixpoint takeWhile (cls : ascii -> bool) (s : string) : string :=
  match s with
  | EmptyString => EmptyString
  | String c s' => if cls c then String c (takeWhile cls s') else EmptyString
  end.

(** A match of the pattern [literal([cls]+)] at the start of [s]: its
    group. *)
Definition captureHere (literal : string) (cls : ascii -> bool) (s : string)
  : option string :=
  match dropPrefix literal s with
  | Some rest =>
      let group := takeWhile cls rest in
      if nonEmpty group then Some group else None
  | None => None
  end.

(** [s.match(/literal([cls]+)/)]: the group of the leftmost match. *)
Fixpoint firstCapture (literal : string) (cls : ascii -> bool) (s : string)
  : option string :=
  match captureHere literal cls s with
  | Some group => Some group
  | None =>
      match s with
      | EmptyString => None
      | String _ s' => firstCapture literal cls s'
      end
  end.

Definition is_digit (c : ascii) : bool :=
  ((48 <=? nat_of_ascii c) && (nat_of_ascii c <=? 57))%nat.

(** The class [[\d,]]. *)
Definition digit_or_comma (c : ascii) : bool := is_digit c || Ascii.eqb c ",".

(** The class [[\d.]]. *)
Definition digit_or_dot (c : ascii) : bool := is_digit c || Ascii.eqb c ".".

(** [s.replace(/,/g, "")]. *)
Fixpoint removeCommas (s : string) : string :=
  match s with
  | EmptyString => EmptyString
  | String c s' =>
      if Ascii.eqb c "," then removeCommas s' else String c (removeCommas s')
  end.

(** Lines 280-298: the statistics read back from the existing Markdown
    file, [None] when it cannot be read. *)
Definition recoverStatistics (rt : Runtime) (existingMd : option string)
  : TokenUsage * number :=
  match existingMd with
  | None => (zeroUsage rt, number_of_nat rt 0)
  | Some md =>
      let tokens literal :=
        match firstCapture literal digit_or_comma md with
        | Some group => number_parseInt rt (removeCommas group)
        | None => number_of_nat rt 0
        end in
      ({| inputTokens := tokens "Input Tokens | ";
          outputTokens := tokens "Output Tokens | ";
          totalTokens := tokens "Total Tokens | " |},
       match firstCapture "Estimated Cost (USD)** | **$" digit_or_dot md with
       | Some group => number_parseFloat rt group
       | None => number_of_nat rt 0
       end)
  end.

(** Lines 277-301: the Markdown written for one report directory, or the
    error for which the [catch] of line 305 skips the directory. *)
Definition regenerateMarkdown (rt : Runtime) (report : Report)
  (authors : option (list Author))
  (bulletPoints : option (list string))
  (summaryParagraphs : option (list SummaryParagraph))
  (schemaName : string) (existingMd : option string) : result string :=
  let '(usage, estimatedCostUSD) := recoverStatistics rt existingMd in
  generateMarkdown rt report authors bulletPoints summaryParagraphs
    schemaName usage estimatedCostUSD.

(** *** Vocabulary for the statistics *)

(** Every character of [s] is in the class [cls]. *)
Fixpoint all_in (cls : ascii -> bool) (s : string) : bool :=
  match s with
  | EmptyString => true
  | String c s' => cls c && all_in cls s'
  end.

(** A printed figure: not empty, and made of the characters of [cls]. *)
Definition printed (cls : ascii -> bool) (s : string) : bool :=
  nonEmpty s && all_in cls s.

Definition pipe_free (s : string) : bool :=
  all_in (fun c => negb (Ascii.eqb c "|")) s.

(** [literal] and [t] differ at a position they both have. *)
Fixpoint clashes (literal t : string) : bool :=
  match literal, t with
  | String a literal', String b t' =>
      if Ascii.eqb a b then clashes literal' t' else true
  | _, _ => false
  end.

(** No match of [literal] can start inside the constant text [c],
    whatever follows it. *)
Fixpoint skippable (literal c : string) : bool :=
  match c with
  | EmptyString => true
  | String _ c' => clashes literal c && skippable literal c'
  end.

(** The end of a table row, [ |] and a line feed. *)
Definition rowEnd : string := " |" ++ nl.

(** No match of [literal] can start inside a text without [|] that the end
    of a row follows. *)
Fixpoint row_end_safe (literal : string) : bool :=
  match literal with
  | EmptyString => false
  | String a literal' =>
      clashes literal rowEnd && (Ascii.eqb a "|" || row_end_safe literal')
  end.


(** ** src/config.ts: loadConfig (lines 8-32) and the flags of main
    (src/index.ts, lines 421-422 and 432)

    [env] is [process.env] once [dotenv] has filled it, [argv] is
    [process.argv]. *)

Record Config : Type := {
  openaiApiKey : string;
  pdfsDirectory : string;
  outputBaseDirectory : string;
  imageDensity : number;
  imageFormat : string;
  imageQuality : number;
  gptModel : string;
  maxTokens : number;
  schemaFile : option string
}.

(** [x || d] on an environment variable: the default replaces an unset and
    an empty variable. *)
Definition env_or (x : option string) (d : string) : string :=
  match x with
  | Some s => if nonEmpty s then s else d
  | None => d
  end.

(** The loop of lines 11-15. *)
Fixpoint checkRequired (env : string -> option string)
  (requiredEnvVars : list string) : result unit :=
  match requiredEnvVars with
  | [] => Ok tt
  | envVar :: rest =>
      match env envVar with
      | Some (String _ _) => checkRequired env rest
      | _ => Throw ("Missing required environment variable: " ++ envVar)
      end
  end.

(** Line 18. *)
Definition nonFlagArgs (argv : list string) : list string :=
  filter (fun arg => negb (String.prefix "-" arg)) (skipn 2 argv).

(** Line 19: [nonFlagArgs[0] || process.env.SCHEMA_FILE]. *)
Definition selectSchemaFile (env : string -> option string)
  (argv : list string) : option string :=
  match nonFlagArgs argv with
  | String c rest :: _ => Some (String c rest)
  | _ => env "SCHEMA_FILE"
  end.

Definition loadConfig (rt : Runtime) (env : string -> option string)
  (argv : list string) : result Config :=
  _ <- checkRequired env ["OPENAI_API_KEY"] ;;
  Ok {| openaiApiKey := match env "OPENAI_API_KEY" with Some k => k | None => "" end;
        pdfsDirectory := path_resolve rt (env_or (env "PDFS_DIRECTORY") "./pdfs");
        outputBaseDirectory :=
          path_resolve rt (env_or (env "OUTPUT_BASE_DIRECTORY") "./extraction");
        imageDensity := number_parseInt10 rt (env_or (env "IMAGE_DENSITY") "300");
        imageFormat := env_or (env "IMAGE_FORMAT") "png";
        imageQuality := number_parseInt10 rt (env_or (env "IMAGE_QUALITY") "100");
        gptModel := env_or (env "GPT_MODEL") "gpt-4.1";
        maxTokens := number_parseInt10 rt (env_or (env "MAX_TOKENS") "4096");
        schemaFile := selectSchemaFile env argv |}.

(** main, lines 421-422. *)
Definition regenerateOnly (argv : list string) : bool :=
  let args := skipn 2 argv in
  existsb (String.eqb "--regenerate-md") args || existsb (String.eqb "-r") args.

(** main, line 432: the schema file main goes on with, [None] when it
    exits with "Schema file is not configured". *)
Definition configuredSchemaFile (config : Config) : option string :=
  match schemaFile config with
  | Some (String c rest) => Some (String c rest)
  | _ => None
  end.

(** *** Vocabulary for the configuration *)

(** The environment with its empty variables unset. *)
Definition unsetEmpty (env : string -> option string) (k : string)
  : option string :=
  match env k with
  | Some (String c rest) => Some (String c rest)
  | _ => None
  end.

(** The configuration but for the schema file. *)
Definition settings (config : Config)
  : string * string * string * number * string * number * string * number :=
  (openaiApiKey config, pdfsDirectory config, outputBaseDirectory config,
   imageDensity config, imageFormat config, imageQuality config,
   gptModel config, maxTokens config).


(** ** Sample values for the rest of the program *)

(** A runtime to compute with: paths are joined with [/] and otherwise kept
    as they are, numbers print in decimal with two given groupings, and a
    numeral is read up to its first character that is no digit. *)
Definition sampleRuntime (of_nat : nat -> number)
  (add : number -> number -> number) (parse : string -> number) : Runtime :=
  {| path_basename := fun p _ => p;
     path_resolve := fun p => p;
     path_join := String.concat "/";
     number_of_nat := of_nat;
     number_add := add;
     number_toLocaleString := fun n => groupThousands (number_to_string n);
     number_toFixed4 := fun n => number_to_string n ++ ".0000";
     number_parseInt := fun s => parse (takeWhile is_digit s);
     number_parseInt10 := fun s => parse (takeWhile is_digit s);
     number_parseFloat := fun s => parse (takeWhile is_digit s) |}.

Definition sampleUsage (input output : number) (add : number -> number -> number)
  : TokenUsage :=
  {| inputTokens := input; outputTokens := output;
     totalTokens := add input output |}.

(** A document whose first-page node is the [authors] scenario. *)
Definition authorsDocument : json :=
  JObj [("properties",
         JObj [("firstPage", firstPageSchema authorsSchema)])].

(** A first-page node with a described leaf, a described array of strings
    and a described nested object. *)
Definition describedSchema : SchemaDefinition :=
  schemaOf
    (JObj [("properties",
            JObj [("reportDate",
                   JObj [("type", JStr "string"); ("format", JStr "date");
                         ("description", JStr "Publication date")]);
                  ("tags",
                   JObj [("type", JStr "array"); ("items", stringType);
                         ("description", JStr "Keywords")]);
                  ("company",
                   JObj [("type", JStr "object");
                         ("description", JStr "Issuer");
                         ("properties",
                          JObj [("ticker",
                                 JObj [("type", JStr "string");
                                       ("format", JStr "ticker");
                                       ("maxLength", JStr "8")])])])])]).

Definition describedNormalized : json :=
  strictObject
    [("reportDate",
      JObj [("type", JStr "string");
            ("description", JStr "Publication date")]);
     ("tags",
      JObj [("type", JStr "array"); ("items", stringType);
            ("description", JStr "Keywords")]);
     ("company",
      strictObject
        [("ticker",
          JObj [("type", JStr "string"); ("maxLength", JStr "8")])]
        ["ticker"])]
    ["reportDate"; "tags"; "company"].

(** An analyzer of the first page that always answers. *)
Definition sampleFirstPage (usage : TokenUsage) (_ : string)
  : result FirstPageResult :=
  Ok {| data := [("title", JStr "X")]; firstTokenUsage := usage |}.

(** An analyzer of inner pages that fails on the image [failing], finds
    nothing on the image [blank], and two blocks elsewhere. *)
Definition sampleInnerPage (usage : TokenUsage) (failing blank : string)
  (imagePath : string) (page : number) : result InnerPageResult :=
  if String.eqb imagePath failing then Throw "No response from GPT"
  else if String.eqb imagePath blank then
    Ok {| paragraphs := []; tokenUsage := usage |}
  else
    Ok {| paragraphs :=
            [block "chapter heading" (Value imagePath) None;
             block "body text" (Value "text") None];
          tokenUsage := usage |}.

Definition sampleReport : Report :=
  {| firstPage := [("title", JStr "X")];
     innerPagesParagraphs := [block "body text" (Value "Total Tokens | 9") None] |}.

(** An environment with a key, an empty model and a schema file. *)
Definition sampleEnv (k : string) : option string :=
  if String.eqb k "OPENAI_API_KEY" then Some "sk-test"
  else if String.eqb k "GPT_MODEL" then Some ""
  else if String.eqb k "SCHEMA_FILE" then Some "stock_report.json"
  else None.

(** * Properties *)

(** Decides every comparison of a style with a tag, given that the style is
    none of the tags listed in [H]. *)
Ltac style_ne H :=
  repeat match goal with
    | |- context [String.eqb ?s ?lit] =>
        destruct (String.eqb_spec s lit) as [?E|_];
        [exfalso; apply H; rewrite E; simpl; tauto|]
    end.

(** ** Keys and objects *)

Lemma nodupb_NoDup (ks : list string) : nodupb ks = true <-> NoDup ks.
Proof.
  induction ks as [|k ks IH]; simpl.
  - split; [constructor | reflexivity].
  - rewrite andb_true_iff, negb_true_iff, IH. split.
    + intros [Hk Hks]. constructor; [|exact Hks].
      intro Hin.
      assert (E : existsb (String.eqb k) ks = true).
      { apply existsb_exists. exists k. split; [exact Hin | apply String.eqb_refl]. }
      congruence.
    + intro H. inversion H as [|? ? Hk Hks]; subst. split; [|exact Hks].
      destruct (existsb (String.eqb k) ks) eqn:E; [|reflexivity].
      apply existsb_exists in E. destruct E as [x [Hin Hx]].
      apply String.eqb_eq in Hx. subst x. contradiction.
Qed.

Lemma index_key_inj (i j : nat) : index_key i = index_key j -> i = j.
Proof.
  unfold index_key. intro H.
  assert (E : Some (Nat.to_uint i) = Some (Nat.to_uint j)).
  { rewrite <- !NilEmpty.usu. now rewrite H. }
  injection E as E. now apply Unsigned.to_uint_inj.
Qed.

Lemma index_key_digit (i : nat) (c : ascii) (rest : string) :
  index_key i = String c rest -> (48 <=? nat_of_ascii c)%nat && (nat_of_ascii c <=? 57)%nat = true.
Proof.
  unfold index_key. destruct (Nat.to_uint i); simpl; intro H;
    try discriminate; injection H as <- _; reflexivity.
Qed.

Lemma indexed_from_keys (xs : list json) (i : nat) :
  map fst (indexed_from i xs) = map index_key (seq i (List.length xs)).
Proof.
  revert i. induction xs as [|x xs IH]; intro i; simpl; [reflexivity|].
  now rewrite IH.
Qed.

Lemma indexed_from_NoDup (xs : list json) (i : nat) :
  NoDup (map fst (indexed_from i xs)).
Proof.
  rewrite indexed_from_keys.
  generalize (seq_NoDup (List.length xs) i).
  generalize (seq i (List.length xs)) as ns.
  induction ns as [|n ns IH]; simpl; intro Hnd; [constructor|].
  inversion Hnd as [|? ? Hn Hns]; subst.
  constructor; [|auto].
  intro Hin. apply in_map_iff in Hin. destruct Hin as [m [E Hm]].
  apply index_key_inj in E. now subst m.
Qed.

Lemma indexed_from_In (xs : list json) (i : nat) (k : string) (v : json) :
  In (k, v) (indexed_from i xs) -> In v xs.
Proof.
  revert i. induction xs as [|x xs IH]; intro i; simpl; [tauto|].
  intros [H | H]; [injection H as _ ->; now left | right; eauto].
Qed.

Lemma indexed_from_lookup (xs : list json) (i : nat) (k : string) (c : ascii) (rest : string) :
  k = String c rest ->
  (48 <=? nat_of_ascii c)%nat && (nat_of_ascii c <=? 57)%nat = false ->
  lookup k (indexed_from i xs) = None.
Proof.
  intros -> Hc. revert i. induction xs as [|x xs IH]; intro i; simpl; [reflexivity|].
  destruct (String.eqb_spec (index_key i) (String c rest)) as [E|_]; [|apply IH].
  apply index_key_digit in E. congruence.
Qed.

Lemma lookup_In (k : string) (o : object) (v : json) :
  lookup k o = Some v -> In (k, v) o.
Proof.
  induction o as [|[k' v'] o IH]; simpl; [discriminate|].
  destruct (String.eqb_spec k' k) as [->|_].
  - intros [= ->]. now left.
  - intro H. right. auto.
Qed.

Lemma lookup_not_In (k : string) (o : object) :
  ~ In k (map fst o) -> lookup k o = None.
Proof.
  induction o as [|[k' v'] o IH]; simpl; [reflexivity|].
  intro H. destruct (String.eqb_spec k' k) as [->|_]; [tauto|].
  apply IH. tauto.
Qed.

Lemma lookup_NoDup_In (k : string) (o : object) (v : json) :
  NoDup (map fst o) -> In (k, v) o -> lookup k o = Some v.
Proof.
  induction o as [|[k' v'] o IH]; simpl; [tauto|].
  intros Hnd [H | H].
  - injection H as -> ->. now rewrite String.eqb_refl.
  - inversion Hnd as [|? ? Hk Hrest]; subst.
    destruct (String.eqb_spec k' k) as [->|_]; [|auto].
    exfalso. apply Hk. change k with (fst (k, v)). now apply in_map.
Qed.

Lemma lookup_delete_ne (k k' : string) (o : object) :
  k <> k' -> lookup k (obj_delete k' o) = lookup k o.
Proof.
  intro Hne. unfold obj_delete.
  induction o as [|[k0 v0] o IH]; simpl; [reflexivity|].
  destruct (String.eqb_spec k0 k') as [->|Hk0]; simpl.
  - destruct (String.eqb_spec k' k) as [->|_]; [congruence | exact IH].
  - destruct (String.eqb_spec k0 k); [reflexivity | exact IH].
Qed.

Lemma has_key_delete (k : string) (o : object) :
  has_key k (obj_delete k o) = false.
Proof.
  unfold has_key, obj_delete.
  induction o as [|[k0 v0] o IH]; simpl; [reflexivity|].
  destruct (String.eqb_spec k0 k) as [->|Hk0]; simpl; [exact IH|].
  destruct (String.eqb_spec k0 k); [contradiction | exact IH].
Qed.

Lemma obj_delete_idem (k : string) (o : object) :
  obj_delete k (obj_delete k o) = obj_delete k o.
Proof.
  unfold obj_delete.
  induction o as [|[k0 v0] o IH]; simpl; [reflexivity|].
  destruct (String.eqb_spec k0 k) as [->|Hk0]; simpl; [exact IH|].
  destruct (String.eqb_spec k0 k); [contradiction | now rewrite IH].
Qed.

Lemma define_own_fresh (k : string) (v : json) (o : object) :
  ~ In k (map fst o) -> define_own k v o = (o ++ [(k, v)])%list.
Proof.
  induction o as [|[k0 v0] o IH]; simpl; [reflexivity|].
  intro H. destruct (String.eqb_spec k0 k) as [->|_]; [tauto|].
  rewrite IH; [reflexivity | tauto].
Qed.

Lemma ordinary_spec (k : string) : ordinary k = true <-> k <> "__proto__".
Proof.
  unfold ordinary. destruct (String.eqb_spec k "__proto__"); simpl;
    split; congruence.
Qed.

(** An assignment to a fresh key adds a last property, unless the key is
    [__proto__]. *)
Lemma obj_set_fresh (k : string) (v : json) (o : object) :
  ~ In k (map fst o) ->
  obj_set k v o = (o ++ declared [(k, v)])%list.
Proof.
  intro H. unfold obj_set, declared, ordinary. cbn [filter fst].
  destruct (String.eqb k "__proto__"); cbn [negb].
  - now rewrite app_nil_r.
  - now apply define_own_fresh.
Qed.

Lemma declared_app (a b : object) :
  declared (a ++ b)%list = (declared a ++ declared b)%list.
Proof. apply filter_app. Qed.



Lemma declared_keys (entries : object) :
  map fst (declared entries) = filter ordinary (map fst entries).
Proof.
  unfold declared. induction entries as [|e entries IH]; [reflexivity|].
  cbn [map filter]. destruct (ordinary (fst e)); cbn [map]; now rewrite IH.
Qed.

Lemma declared_In (entries : object) (k : string) (v : json) :
  In (k, v) (declared entries) <-> In (k, v) entries /\ k <> "__proto__".
Proof.
  unfold declared. rewrite filter_In. cbn [fst]. now rewrite ordinary_spec.
Qed.




(** ** Well-formed documents *)

Lemma wf_own_entries (v : json) :
  wf_json v = true ->
  NoDup (map fst (own_entries v))
  /\ forall k x, In (k, x) (own_entries v) -> wf_json x = true.
Proof.
  destruct v as [| b | n | s | xs | o]; simpl; intro H;
    try (split; [constructor | intros ? ? []]).
  - split; [apply indexed_from_NoDup|].
    intros k x Hin. apply indexed_from_In in Hin.
    apply in_map_iff in Hin. destruct Hin as [c [<- _]]. reflexivity.
  - split; [apply indexed_from_NoDup|].
    intros k x Hin. apply indexed_from_In in Hin.
    rewrite forallb_forall in H. auto.
  - apply andb_true_iff in H. destruct H as [Hk Hv].
    split; [now apply nodupb_NoDup|].
    intros k x Hin. rewrite forallb_forall in Hv. apply (Hv (k, x) Hin).
Qed.

Lemma wf_member (v : json) (k : string) (x : json) :
  wf_json v = true -> member v k = Some x -> wf_json x = true.
Proof.
  intros Hwf Hm. destruct v; simpl in Hm; try discriminate.
  apply lookup_In in Hm. apply (proj2 (wf_own_entries _ Hwf) k x Hm).
Qed.

Lemma truthy_val_Some (x : option json) (v : json) :
  truthy_val x = Some v -> x = Some v /\ truthy v = true.
Proof.
  destruct x as [w|]; simpl; [|discriminate].
  destruct (truthy w) eqn:E; [|discriminate]. intros [= ->]. auto.
Qed.

Lemma truthy_not_null (v : json) : truthy v = true -> v <> JNull.
Proof. destruct v; simpl; congruence. Qed.

Lemma wf_objectProperties (v ps : json) :
  wf_json v = true -> objectProperties v = Some ps -> wf_json ps = true.
Proof.
  unfold objectProperties. intros Hwf H.
  destruct (is_str "object" (member v "type")); [|discriminate].
  apply truthy_val_Some in H. destruct H as [H _]. eapply wf_member; eauto.
Qed.

Lemma wf_arrayItems (v items : json) :
  wf_json v = true -> arrayItems v = Some items -> wf_json items = true.
Proof.
  unfold arrayItems. intros Hwf H.
  destruct (is_str "array" (member v "type")); [|discriminate].
  apply truthy_val_Some in H. destruct H as [H _]. eapply wf_member; eauto.
Qed.

Lemma wf_rawProperties (schema : SchemaDefinition) :
  wf_json (firstPageSchema schema) = true ->
  wf_json (rawProperties schema) = true.
Proof.
  intro Hwf. unfold rawProperties, or_else.
  destruct (truthy_val (member (firstPageSchema schema) "properties")) as [v|] eqn:E;
    [|reflexivity].
  apply truthy_val_Some in E. destruct E as [E _]. eapply wf_member; eauto.
Qed.

(** ** The loops of the normalizer *)

(** The keys still to visit stay fresh for the properties assigned so
    far. *)
Lemma NoDup_visit (props : object) (k : string) (v : json) (keys : list string) :
  NoDup (map fst props ++ k :: keys) ->
  ~ In k (map fst props)
  /\ NoDup (map fst (props ++ declared [(k, v)]) ++ keys).
Proof.
  intro Hnd. split.
  - apply NoDup_remove_2 in Hnd. intro Hin. apply Hnd.
    apply in_or_app. now left.
  - unfold declared. cbn [filter fst]. destruct (ordinary k).
    + rewrite map_app. cbn [map fst]. now rewrite <- app_assoc.
    + rewrite app_nil_r. now apply NoDup_remove_1 in Hnd.
Qed.

Lemma nestedLoop_fold (entries : object) (props : object) (req : list string) :
  NoDup (map fst props ++ map fst entries) ->
  fold_left nestedStep entries (props, req)
  = ((props ++ map cleanEntry (declared entries))%list,
     (req ++ map fst entries)%list).
Proof.
  revert props req.
  induction entries as [|[k v] entries IH]; intros props req Hnd.
  - simpl. now rewrite !app_nil_r.
  - cbn [fold_left nestedStep map fst] in *.
    destruct (NoDup_visit props k (JObj (obj_delete "format" (spread v)))
                (map fst entries) Hnd) as [Hk Hnd'].
    rewrite obj_set_fresh by exact Hk. rewrite IH by exact Hnd'.
    change ((k, v) :: entries) with ([(k, v)] ++ entries)%list.
    rewrite declared_app, map_app, <- !app_assoc.
    f_equal. f_equal. unfold declared. cbn [filter fst].
    now destruct (ordinary k).
Qed.

Lemma nestedLoop_spec (properties : json) :
  wf_json properties = true ->
  nestedLoop properties
  = (map cleanEntry (declared (Object_entries properties)),
     map fst (Object_entries properties)).
Proof.
  intro Hwf. unfold nestedLoop. rewrite nestedLoop_fold; [reflexivity|].
  simpl. apply (proj1 (wf_own_entries _ Hwf)).
Qed.

Lemma map_fst_cleanEntry (entries : object) :
  map fst (map cleanEntry entries) = map fst entries.
Proof. rewrite map_map. reflexivity. Qed.

Lemma map_fst_normEntry (entries : object) :
  map fst (map normEntry entries) = map fst entries.
Proof. rewrite map_map. reflexivity. Qed.

Lemma get_prop_not_null (v : json) (k : string) :
  v <> JNull -> get_prop v k = Ok (member v k).
Proof. destruct v; simpl; congruence. Qed.

(** [strictProperty] throws on [null] and nowhere else; on the other values
    it computes [normalized]. *)
Lemma strictProperty_spec (prop : json) :
  wf_json prop = true ->
  prop <> JNull ->
  strictProperty prop = Ok (normalized prop).
Proof.
  intros Hwf Hnn. unfold strictProperty, normalized, classify, arrayItems.
  rewrite ?get_prop_not_null by exact Hnn. cbn [bind].
  destruct (is_str "array" (member prop "type")) eqn:Harr.
  - destruct (truthy_val (member prop "items")) as [items|] eqn:Hit.
    + assert (Hwi : wf_json items = true).
      { apply truthy_val_Some in Hit. destruct Hit as [Hit _].
        eapply wf_member; eauto. }
      assert (Hin : items <> JNull).
      { apply truthy_not_null. now apply truthy_val_Some in Hit. }
      rewrite ?get_prop_not_null by exact Hin. cbn [bind].
      unfold objectProperties.
      destruct (is_str "object" (member items "type")) eqn:Hobj.
      * rewrite ?get_prop_not_null by exact Hin. cbn [bind].
        destruct (truthy_val (member items "properties")) as [ps|] eqn:Hps;
          [|reflexivity].
        rewrite nestedLoop_spec; [reflexivity|].
        apply truthy_val_Some in Hps. destruct Hps as [Hps _].
        eapply wf_member; eauto.
      * reflexivity.
    + unfold objectProperties.
      destruct (is_str "object" (member prop "type")) eqn:Hobj; [|reflexivity].
      exfalso. unfold is_str in Harr, Hobj.
      destruct (member prop "type") as [[]|]; try discriminate.
      apply String.eqb_eq in Harr, Hobj. congruence.
  - unfold objectProperties.
    destruct (is_str "object" (member prop "type")) eqn:Hobj; [|reflexivity].
    rewrite ?get_prop_not_null by exact Hnn. cbn [bind].
    destruct (truthy_val (member prop "properties")) as [ps|] eqn:Hps;
      [|reflexivity].
    rewrite nestedLoop_spec; [reflexivity|].
    apply truthy_val_Some in Hps. destruct Hps as [Hps _].
    eapply wf_member; eauto.
Qed.

Lemma strictProperty_null : returns (strictProperty JNull) = false.
Proof. reflexivity. Qed.

Lemma strictProperty_returns (prop : json) :
  prop <> JNull -> returns (strictProperty prop) = true.
Proof.
  intro Hnn. unfold strictProperty.
  rewrite ?get_prop_not_null by exact Hnn. cbn [bind].
  destruct (is_str "array" (member prop "type")).
  - destruct (truthy_val (member prop "items")) as [items|] eqn:Hit;
      [|reflexivity].
    assert (Hin : items <> JNull).
    { apply truthy_not_null. now apply truthy_val_Some in Hit. }
    rewrite ?get_prop_not_null by exact Hin. cbn [bind].
    destruct (is_str "object" (member items "type")).
    + rewrite ?get_prop_not_null by exact Hin. cbn [bind].
      destruct (truthy_val (member items "properties")); [|reflexivity].
      destruct (nestedLoop j). reflexivity.
    + reflexivity.
  - destruct (is_str "object" (member prop "type")); [|reflexivity].
    rewrite ?get_prop_not_null by exact Hnn. cbn [bind].
    destruct (truthy_val (member prop "properties")); [|reflexivity].
    destruct (nestedLoop j). reflexivity.
Qed.

Lemma propertiesLoop_returns (entries : object) (acc : object * list string) :
  returns (propertiesLoop entries acc) = true <-> Forall not_null entries.
Proof.
  revert acc. induction entries as [|[k v] entries IH]; intros [props req]; simpl.
  - split; [constructor | reflexivity].
  - destruct v as [| b | n | s | xs | o];
      try (assert (Hr := strictProperty_returns);
           match goal with
           | |- context [strictProperty ?x] =>
               specialize (Hr x ltac:(discriminate));
               destruct (strictProperty x) as [p|e]; [|discriminate Hr]
           end; simpl; rewrite IH; split;
           [ intro H; constructor; [unfold not_null; simpl; discriminate | exact H]
           | intro H; now inversion H ]).
    simpl. split; [discriminate|].
    intro H. inversion H as [|? ? Hn _]. now elim Hn.
Qed.

Lemma propertiesLoop_spec (entries : object) (props : object) (req : list string) :
  Forall not_null entries ->
  Forall (fun entry => wf_json (snd entry) = true) entries ->
  NoDup (map fst props ++ map fst entries) ->
  propertiesLoop entries (props, req)
  = Ok ((props ++ map normEntry (declared entries))%list,
        (req ++ map fst entries)%list).
Proof.
  revert props req.
  induction entries as [|[k v] entries IH]; intros props req Hnn Hwf Hnd.
  - simpl. now rewrite !app_nil_r.
  - inversion Hnn as [|? ? Hv Hrest]; subst.
    inversion Hwf as [|? ? Hwv Hwrest]; subst.
    cbn [propertiesLoop map fst] in *.
    rewrite strictProperty_spec by assumption. cbn [bind].
    destruct (NoDup_visit props k (normalized v) (map fst entries) Hnd)
      as [Hk Hnd'].
    rewrite obj_set_fresh by exact Hk. rewrite IH by assumption.
    change ((k, v) :: entries) with ([(k, v)] ++ entries)%list.
    rewrite declared_app, map_app, <- !app_assoc.
    f_equal. f_equal. f_equal. unfold declared. cbn [filter fst].
    now destruct (ordinary k).
Qed.

Lemma declaredProperties_spec (schema : SchemaDefinition) :
  firstPageSchema schema <> JNull ->
  declaredProperties schema = Ok (rawProperties schema).
Proof.
  intro Hnn. unfold declaredProperties, rawProperties.
  now rewrite get_prop_not_null.
Qed.

Lemma strictSchema_returns (schema : SchemaDefinition) :
  returns (strictSchema schema) = true
  <-> firstPageSchema schema <> JNull
      /\ Forall not_null (Object_entries (rawProperties schema)).
Proof.
  unfold strictSchema. split.
  - intro H. assert (Hnn : firstPageSchema schema <> JNull).
    { intro E. unfold declaredProperties in H. rewrite E in H. discriminate. }
    split; [exact Hnn|].
    rewrite declaredProperties_spec in H by exact Hnn. cbn [bind] in H.
    apply (propertiesLoop_returns _ ([], [])).
    destruct (propertiesLoop _ _) as [[props req]|e]; [reflexivity | discriminate].
  - intros [Hnn Hall]. rewrite declaredProperties_spec by exact Hnn. cbn [bind].
    apply (propertiesLoop_returns _ ([], [])) in Hall.
    destruct (propertiesLoop _ _) as [[props req]|e]; [reflexivity | discriminate].
Qed.

Lemma strictSchema_spec (schema : SchemaDefinition) :
  wf_json (firstPageSchema schema) = true ->
  firstPageSchema schema <> JNull ->
  Forall not_null (Object_entries (rawProperties schema)) ->
  strictSchema schema
  = Ok (strictObject
          (map normEntry (declared (Object_entries (rawProperties schema))))
          (map fst (Object_entries (rawProperties schema)))).
Proof.
  intros Hwf Hnn Hall. unfold strictSchema.
  rewrite declaredProperties_spec by exact Hnn. cbn [bind].
  pose proof (wf_own_entries _ (wf_rawProperties _ Hwf)) as [Hnd Hwfe].
  rewrite propertiesLoop_spec; [reflexivity | exact Hall | | exact Hnd].
  apply Forall_forall. intros [k v] Hin. exact (Hwfe k v Hin).
Qed.

Lemma strictSchema_inv (schema : SchemaDefinition) (s : json) :
  wf_json (firstPageSchema schema) = true ->
  strictSchema schema = Ok s ->
  firstPageSchema schema <> JNull
  /\ Forall not_null (Object_entries (rawProperties schema))
  /\ s = strictObject
           (map normEntry (declared (Object_entries (rawProperties schema))))
           (map fst (Object_entries (rawProperties schema))).
Proof.
  intros Hwf H.
  assert (Hr : returns (strictSchema schema) = true) by now rewrite H.
  apply strictSchema_returns in Hr. destruct Hr as [Hnn Hall].
  rewrite strictSchema_spec in H by assumption.
  injection H as <-. auto.
Qed.

Lemma build_inv (schema : SchemaDefinition) (out : json) :
  buildFirstPageJsonSchema schema = Ok out
  <-> exists s, strictSchema schema = Ok s /\ out = responseFormat s.
Proof.
  unfold buildFirstPageJsonSchema. split.
  - destruct (strictSchema schema) as [s|e]; simpl; [|discriminate].
    intros [= <-]. eauto.
  - intros [s [-> ->]]. reflexivity.
Qed.

(** ** The branches of the loop body, on their own output *)

Lemma member_cleanProp (v : json) (k : string) (c : ascii) (rest : string) :
  k = String c rest ->
  (48 <=? nat_of_ascii c)%nat && (nat_of_ascii c <=? 57)%nat = false ->
  k <> "format" ->
  member (cleanProp v) k = member v k.
Proof.
  intros Hk Hc Hne. unfold cleanProp, spread. simpl.
  rewrite lookup_delete_ne by exact Hne.
  destruct v; simpl; try reflexivity; eapply indexed_from_lookup; eauto.
Qed.

Lemma arrayItems_cleanProp (v : json) : arrayItems (cleanProp v) = arrayItems v.
Proof.
  unfold arrayItems.
  rewrite (member_cleanProp v "type" "t" "ype"), (member_cleanProp v "items" "i" "tems");
    (reflexivity || discriminate).
Qed.

Lemma objectProperties_cleanProp (v : json) :
  objectProperties (cleanProp v) = objectProperties v.
Proof.
  unfold objectProperties.
  rewrite (member_cleanProp v "type" "t" "ype"),
    (member_cleanProp v "properties" "p" "roperties");
    (reflexivity || discriminate).
Qed.



Lemma own_format_cleanProp (v : json) : own_format (cleanProp v) = false.
Proof. unfold own_format, cleanProp. simpl. apply has_key_delete. Qed.

Lemma arrayItems_is_object (v items : json) :
  arrayItems v = Some items -> JObj (spread v) = v.
Proof.
  unfold arrayItems, is_str, member.
  destruct v; try discriminate. reflexivity.
Qed.

Lemma arrayItems_objectProperties (v items : json) :
  arrayItems v = Some items -> objectProperties v = None.
Proof.
  unfold arrayItems, objectProperties, is_str.
  destruct (member v "type") as [[]|]; try discriminate.
  destruct (String.eqb_spec s "array") as [->|]; [reflexivity | discriminate].
Qed.

(** The four shapes, read off the test results. *)
Lemma classify_cases (prop : json) :
  (exists items ps, arrayItems prop = Some items
     /\ objectProperties items = Some ps /\ classify prop = ArrayOfObjects ps)
  \/ (exists items, arrayItems prop = Some items
        /\ objectProperties items = None /\ classify prop = ArrayOther)
  \/ (exists ps, arrayItems prop = None
        /\ objectProperties prop = Some ps /\ classify prop = NestedObject ps)
  \/ (arrayItems prop = None /\ objectProperties prop = None
        /\ classify prop = Leaf).
Proof.
  unfold classify.
  destruct (arrayItems prop) as [items|].
  - destruct (objectProperties items) as [ps|] eqn:E.
    + left. exists items, ps. rewrite E. auto.
    + right; left. exists items. rewrite E. auto.
  - destruct (objectProperties prop) as [ps|]; right; right; [left | right].
    + exists ps. auto.
    + auto.
Qed.







Lemma NoDup_keys_filter (f : string * json -> bool) (o : object) :
  NoDup (map fst o) -> NoDup (map fst (filter f o)).
Proof.
  induction o as [|kv o IH]; simpl; intro H; [constructor|].
  inversion H as [|? ? Hk Hrest]; subst.
  destruct (f kv); simpl; [|auto].
  constructor; [|auto].
  intro Hin. apply Hk. apply in_map_iff in Hin. destruct Hin as [x [E Hx]].
  apply filter_In in Hx. apply in_map_iff. exists x. tauto.
Qed.









Lemma responseFormat_inj (a b : json) : responseFormat a = responseFormat b -> a = b.
Proof. unfold responseFormat. congruence. Qed.

Lemma build_schema_inv (schema : SchemaDefinition) (s : json) :
  wf_json (firstPageSchema schema) = true ->
  buildFirstPageJsonSchema schema = Ok (responseFormat s) ->
  firstPageSchema schema <> JNull
  /\ Forall not_null (Object_entries (rawProperties schema))
  /\ s = strictObject
           (map normEntry (declared (Object_entries (rawProperties schema))))
           (map fst (Object_entries (rawProperties schema))).
Proof.
  intros Hwf H. apply build_inv in H. destruct H as [s' [H E]].
  apply responseFormat_inj in E. subst s'. now apply strictSchema_inv.
Qed.

Lemma In_cleanEntry_format (entries : object) (k : string) (v : json) :
  In (k, v) (map cleanEntry entries) -> own_format v = false.
Proof.
  intro Hin. apply in_map_iff in Hin. destruct Hin as [[k0 v0] [E _]].
  injection E as _ <-. apply own_format_cleanProp.
Qed.

Lemma forallb_not_null (entries : object) :
  forallb (fun e => negb (is_null (snd e))) entries = true
  <-> Forall not_null entries.
Proof.
  rewrite forallb_forall, Forall_forall. unfold not_null.
  split; intros H e Hin; specialize (H e Hin); destruct (snd e);
    simpl in *; congruence.
Qed.

(** ** The schema normalizer *)





(** C1, as the code has it. In the normalized schema no node that the
    normalizer builds carries a [format] keyword of its own: not the
    top-level schema, not a top-level property unless it is an array with
    items, not a property of a nested object, not a rebuilt array of
    objects nor a property of its item object.  Deeper nodes are copied as
    they are. *)
Theorem no_format_in_built_nodes (schema : SchemaDefinition) (s : json) :
  wf_json (firstPageSchema schema) = true ->
  buildFirstPageJsonSchema schema = Ok (responseFormat s) ->
  own_format s = false
  /\ exists props,
       member s "properties" = Some (JObj props)
       /\ forall key v, In (key, v) props ->
          (arrayItems v = None -> own_format v = false)
          /\ (forall properties,
                objectProperties v = Some properties ->
                forall k f, In (k, f) (Object_entries properties) ->
                            own_format f = false)
          /\ (forall items itemProperties,
                arrayItems v = Some items ->
                objectProperties items = Some itemProperties ->
                own_format v = false
                /\ own_format items = false
                /\ forall k f, In (k, f) (Object_entries itemProperties) ->
                               own_format f = false).
Proof.
  intros Hwf H.
  destruct (build_schema_inv _ _ Hwf H) as (Hnn & Hall & ->).
  set (entries := Object_entries (rawProperties schema)) in *.
  split; [reflexivity|].
  exists (map normEntry (declared entries)). split; [reflexivity|].
  intros key v Hin. apply in_map_iff in Hin.
  destruct Hin as [[key0 raw] [E _]]. injection E as _ <-. clear key0.
  destruct (classify_cases raw)
    as [(items & ps & Ha & Ho & C) | [(items & Ha & Ho & C)
       | [(ps & Ha & Ho & C) | (Ha & Ho & C)]]];
    unfold normalized; rewrite C.
  - split; [discriminate|]. split; [discriminate|].
    intros items' ps' [= <-] [= <-].
    split; [reflexivity|]. split; [reflexivity|].
    intros k f. apply In_cleanEntry_format.
  - rewrite (arrayItems_is_object _ _ Ha).
    split; [congruence|]. split.
    + rewrite (arrayItems_objectProperties _ _ Ha). discriminate.
    + intros items' ps'. rewrite Ha. intros [= <-]. congruence.
  - split; [reflexivity|]. split.
    + intros ps' [= <-] k f. apply In_cleanEntry_format.
    + discriminate.
  - rewrite arrayItems_cleanProp, objectProperties_cleanProp, Ha, Ho.
    split; [intros _; apply own_format_cleanProp|].
    split; discriminate.
Qed.

(** C7, as the code has it. When the first-page node is not [null], the
    normalizer returns exactly when no declared first-page property is
    [null]; without a [properties] key, or with no declared property, it
    returns the empty strict object schema. *)
Theorem normalization_returns (schema : SchemaDefinition) :
  is_null (firstPageSchema schema) = false ->
  returns (buildFirstPageJsonSchema schema)
  = forallb (fun e => negb (is_null (snd e)))
      (Object_entries (rawProperties schema))
  /\ (member (firstPageSchema schema) "properties" = None ->
      buildFirstPageJsonSchema schema = Ok (responseFormat (strictObject [] [])))
  /\ (Object_entries (rawProperties schema) = [] ->
      buildFirstPageJsonSchema schema = Ok (responseFormat (strictObject [] []))).
Proof.
  intro Hn.
  assert (Hnn : firstPageSchema schema <> JNull).
  { intro E. rewrite E in Hn. discriminate. }
  assert (Hempty : Object_entries (rawProperties schema) = [] ->
                   buildFirstPageJsonSchema schema
                   = Ok (responseFormat (strictObject [] []))).
  { intro E. unfold buildFirstPageJsonSchema, strictSchema.
    rewrite declaredProperties_spec by exact Hnn. cbn [bind].
    rewrite E. reflexivity. }
  split; [|split].
  - assert (R : returns (buildFirstPageJsonSchema schema)
                = returns (strictSchema schema)).
    { unfold buildFirstPageJsonSchema. now destruct (strictSchema schema). }
    rewrite R.
    destruct (forallb _ _) eqn:F.
    + apply strictSchema_returns. split; [exact Hnn|].
      now apply forallb_not_null.
    + destruct (returns (strictSchema schema)) eqn:Rs; [|reflexivity].
      apply strictSchema_returns in Rs. destruct Rs as [_ Rs].
      apply forallb_not_null in Rs. congruence.
  - intro E. apply Hempty. unfold rawProperties. now rewrite E.
  - exact Hempty.
Qed.

(** ** The prompt synthesizer *)

Lemma prefix_spec (sub s : string) :
  String.prefix sub s = true <-> exists post, s = sub ++ post.
Proof.
  revert s. induction sub as [|c sub IH]; intro s.
  - split; [intros _; now exists s | intros _; now destruct s].
  - destruct s as [|d s]; simpl.
    + split; [discriminate | intros [post H]; discriminate].
    + destruct (Ascii.ascii_dec c d) as [->|Hne].
      * rewrite IH. split; intros [post H]; exists post; congruence.
      * split; [discriminate|]. intros [post H]. congruence.
Qed.

Lemma includes_spec (sub s : string) :
  includes sub s = true <-> exists pre post, s = pre ++ sub ++ post.
Proof.
  induction s as [|c s IH]; cbn [includes]; rewrite orb_true_iff.
  - split.
    + intros [H | H]; [|discriminate].
      apply prefix_spec in H. destruct H as [post H]. now exists "", post.
    + intros [pre [post H]]. left. apply prefix_spec.
      destruct pre; [now exists post | discriminate].
  - rewrite IH. split.
    + intros [H | [pre [post H]]].
      * apply prefix_spec in H. destruct H as [post H]. now exists "", post.
      * exists (String c pre), post. simpl. now rewrite H.
    + intros [pre [post H]]. destruct pre as [|d pre].
      * left. apply prefix_spec. now exists post.
      * right. exists pre, post. simpl in H. congruence.
Qed.

(** C8. The prompt is a function of the schema and the schema name alone:
    the fixed instructional text, with the label [sector] exactly when the
    schema name contains the substring [sector], else [stock research], in
    its first sentence, and with one bulleted line per top-level field name,
    in enumeration order, after [Extract the following fields:]. *)
Theorem prompt_synthesis (schema : json) (schemaName : string) :
  is_null schema = false ->
  let reportType :=
    if includes "sector" schemaName then "sector" else "stock research" in
  let fields :=
    Object_keys (or_else (member schema "properties") (JObj [])) in
  let lf := String "010"%char EmptyString in
  generateFirstPagePrompt schema schemaName
  = Ok ("You are analyzing the first page of a " ++ reportType
        ++ " report. Extract all information from this image." ++ lf
        ++ lf
        ++ "Extract the following fields:" ++ lf
        ++ String.concat lf (map (fun key => "- " ++ key) fields) ++ lf
        ++ lf
        ++ "Instructions:" ++ lf
        ++ "- Extract all text exactly as shown" ++ lf
        ++ "- For dates, format as YYYY-MM-DD" ++ lf
        ++ "- For numbers, extract as numeric values" ++ lf
        ++ "- For arrays (like authors, bulletPoints), extract all items" ++ lf
        ++ "- If a field is not visible, use an appropriate default value")
  /\ (includes "sector" schemaName = true
      <-> exists pre post, schemaName = pre ++ "sector" ++ post).
Proof.
  intros Hn reportType fields lf. split; [|apply includes_spec].
  unfold generateFirstPagePrompt, reportTypeLabel.
  rewrite get_prop_not_null; [reflexivity|].
  intro E. rewrite E in Hn. discriminate.
Qed.

(** ** The first-page renderer *)


Lemma append_empty_r (s : string) : s ++ "" = s.
Proof. induction s; simpl; congruence. Qed.

Lemma metadataStep_row (firstPage : object) (acc : list (string * string))
  (field : string) :
  metadataStep firstPage acc field
  = (row <- metadataRowOf firstPage (field, fieldLabel field) ;;
     Ok (acc ++ row)%list).
Proof.
  unfold metadataStep, metadataRowOf. cbn [fst snd].
  destruct (lookup field firstPage) as [v|];
    [|cbn [bind]; now rewrite app_nil_r].
  destruct v; cbn [is_null bind]; rewrite ?app_nil_r; try reflexivity;
    match goal with
    | |- context [ToString ?x] => destruct (ToString x) as [value|e]
    end; cbn [bind]; try reflexivity;
    destruct (String.eqb field "upsideDownside");
    now rewrite ?append_empty_r.
Qed.

Lemma metadata_fold (firstPage : object) (fields : list string)
  (acc : list (string * string)) :
  fold_result (metadataStep firstPage) fields acc
  = (rows <- collect
               (map (fun f => metadataRowOf firstPage (f, fieldLabel f)) fields) ;;
     Ok (acc ++ rows)%list).
Proof.
  revert acc. induction fields as [|f fields IH]; intro acc.
  - cbn. now rewrite app_nil_r.
  - cbn [fold_result map collect]. rewrite metadataStep_row.
    destruct (metadataRowOf firstPage (f, fieldLabel f)) as [row|e];
      cbn [bind]; [|reflexivity].
    rewrite IH.
    destruct (collect _) as [rows|e]; cbn [bind]; [|reflexivity].
    now rewrite app_assoc.
Qed.

Lemma displayMetadata_rows (firstPage : object) :
  displayMetadata firstPage
  = collect (map (metadataRowOf firstPage) metadataLabels).
Proof.
  unfold displayMetadata. rewrite metadata_fold.
  change (map (fun f => metadataRowOf firstPage (f, fieldLabel f)) metadataFields)
    with (map (metadataRowOf firstPage) metadataLabels).
  now destruct (collect _).
Qed.






(** ** The inner-pages renderer *)

Lemma map_const_repeat (A B : Type) (b : B) (l : list A) :
  map (fun _ => b) l = repeat b (List.length l).
Proof. induction l; simpl; congruence. Qed.

Lemma runs_cons (x : number) (rest : list number) :
  runs (x :: rest) = S (runs_after (Some x) rest).
Proof.
  revert x. induction rest as [|y rest IH]; intro x; [reflexivity|].
  change (runs (x :: y :: rest))
    with (if number_eq_dec y x then runs (y :: rest) else S (runs (y :: rest))).
  rewrite IH. simpl. now destruct (number_eq_dec y x).
Qed.

Lemma runs_runs_after (pages : list number) : runs pages = runs_after None pages.
Proof. destruct pages; [reflexivity|]. now rewrite runs_cons. Qed.

Lemma markers_count (blocks : list InnerPageParagraph) (currentPage : option number) :
  List.length (filter is_some (markers currentPage blocks))
  = runs_after currentPage (present_pages blocks).
Proof.
  revert currentPage.
  induction blocks as [|b blocks IH]; intro currentPage; [reflexivity|].
  unfold present_pages. simpl. unfold markerOf.
  fold (present_pages blocks).
  destruct (pageNumber b) as [n|]; simpl; [|apply IH].
  destruct (differs n currentPage) eqn:D; simpl; rewrite IH; [reflexivity|].
  unfold differs in D. destruct currentPage as [c|]; [|discriminate].
  destruct (number_eq_dec n c) as [->|]; [reflexivity | discriminate].
Qed.

Lemma markers_length (blocks : list InnerPageParagraph) (currentPage : option number) :
  List.length (markers currentPage blocks) = List.length blocks.
Proof.
  revert currentPage. induction blocks; intro; simpl; congruence.
Qed.

Lemma pageStep_fold (blocks : list InnerPageParagraph) (lines : list string)
  (currentPage : option number) :
  fst (fold_left pageStep blocks (lines, currentPage))
  = (lines ++ flat_map blockLines (combine (markers currentPage blocks) blocks))%list.
Proof.
  revert lines currentPage.
  induction blocks as [|b blocks IH]; intros lines currentPage; simpl.
  - now rewrite app_nil_r.
  - unfold blockLines at 1. simpl.
    destruct (markerOf currentPage b) as [page|]; simpl; rewrite IH;
      now rewrite <- ?app_assoc.
Qed.

Lemma markers_origin (blocks : list InnerPageParagraph) (currentPage : option number) :
  Forall2 (fun m b => m = None \/ m = pageNumber b)
    (markers currentPage blocks) blocks.
Proof.
  revert currentPage.
  induction blocks as [|b blocks IH]; intro currentPage; simpl; constructor.
  - unfold markerOf. destruct (pageNumber b) as [n|]; [|now left].
    destruct (differs n currentPage); [now right | now left].
  - apply IH.
Qed.

Lemma render_flat_map (blocks : list InnerPageParagraph) :
  generateInnerPagesMarkdown blocks
  = flat_map blockLines (combine (markers None blocks) blocks).
Proof.
  unfold generateInnerPagesMarkdown.
  destruct blocks as [|b blocks]; [reflexivity|].
  change (0 <? List.length (b :: blocks))%nat with true. cbv iota.
  now rewrite pageStep_fold.
Qed.

Lemma markers_app (a b : list InnerPageParagraph) (currentPage : option number) :
  markers currentPage (a ++ b)
  = (markers currentPage a ++ markers (pageAfter currentPage a) b)%list.
Proof.
  revert currentPage. induction a as [|x a IH]; intro currentPage; simpl;
    [reflexivity|]. now rewrite IH.
Qed.

Lemma markerOf_state (currentPage : option number) (b : InnerPageParagraph) :
  match markerOf currentPage b with
  | Some page => Some page
  | None => currentPage
  end
  = match pageNumber b with
    | Some page => Some page
    | None => currentPage
    end.
Proof.
  unfold markerOf, differs. destruct (pageNumber b) as [page|]; [|reflexivity].
  destruct currentPage as [c|]; [|reflexivity].
  destruct (number_eq_dec page c) as [->|]; reflexivity.
Qed.

Lemma pageAfter_lastPage (blocks : list InnerPageParagraph)
  (currentPage : option number) :
  pageAfter currentPage blocks = lastPage currentPage blocks.
Proof.
  revert currentPage.
  induction blocks as [|b blocks IH]; intro currentPage; [reflexivity|].
  cbn [pageAfter]. rewrite markerOf_state, IH.
  unfold lastPage, present_pages. cbn [flat_map].
  fold (present_pages blocks).
  destruct (pageNumber b) as [page|]; [|reflexivity].
  cbn [app rev]. destruct (rev (present_pages blocks)); reflexivity.
Qed.

Lemma combine_app (A B : Type) (xs xs' : list A) (ys ys' : list B) :
  List.length xs = List.length ys ->
  combine (xs ++ xs') (ys ++ ys') = (combine xs ys ++ combine xs' ys')%list.
Proof.
  revert ys. induction xs as [|x xs IH]; intros [|y ys] H; simpl in *;
    try discriminate; [reflexivity|].
  rewrite IH; [reflexivity|]. now injection H.
Qed.

(** C2. The renderer pushes, block after block, the marker the block
    triggers and then the lines of its style; the markers pushed are as many
    as the maximal runs of equal page numbers among the page numbers that
    are present, and a block triggers no marker but for its own page number,
    so none when that is absent. *)
Theorem page_marker_count (blocks : list InnerPageParagraph) :
  generateInnerPagesMarkdown blocks
  = flat_map blockLines (combine (markers None blocks) blocks)
  /\ List.length (markers None blocks) = List.length blocks
  /\ List.length (filter is_some (markers None blocks))
     = runs (present_pages blocks)
  /\ Forall2 (fun m b => m = None \/ m = pageNumber b)
       (markers None blocks) blocks
  /\ (forall page,
        markerLines (Some page)
        = [""; "Page " ++ number_to_string page;
           "-----------------------------------------"; ""])
  /\ markerLines None = [].
Proof.
  split; [|split; [|split; [|split; [|split]]]]; try reflexivity.
  - unfold generateInnerPagesMarkdown.
    destruct blocks as [|b blocks]; [reflexivity|].
    change (0 <? List.length (b :: blocks))%nat with true. cbv iota.
    now rewrite pageStep_fold.
  - apply markers_length.
  - rewrite runs_runs_after. apply markers_count.
  - apply markers_origin.
Qed.

Lemma pageAfter_app (a b : list InnerPageParagraph)
  (currentPage : option number) :
  pageAfter currentPage (a ++ b) = pageAfter (pageAfter currentPage a) b.
Proof.
  revert currentPage. induction a as [|x a IH]; intro currentPage;
    [reflexivity|]. cbn [app pageAfter]. apply IH.
Qed.

(** The lines of one block, where they stand in the rendering: after the
    rendering of the blocks before it, and before the lines of the blocks
    after it. *)
Lemma render_block (before after : list InnerPageParagraph)
  (b : InnerPageParagraph) :
  generateInnerPagesMarkdown (before ++ b :: after)
  = (generateInnerPagesMarkdown before
     ++ markerLines (markerOf (lastPage None before) b)
     ++ styleLines b
     ++ flat_map blockLines
          (combine (markers (lastPage None (before ++ [b])) after) after))%list.
Proof.
  rewrite !render_flat_map, markers_app.
  rewrite combine_app by apply markers_length.
  rewrite flat_map_app. f_equal.
  rewrite <- !pageAfter_lastPage, pageAfter_app.
  cbn [markers combine flat_map pageAfter]. unfold blockLines at 1.
  cbn [fst snd]. now rewrite <- app_assoc.
Qed.

(** C5. Wherever a table block stands in the sequence, the renderer pushes
    for it, after the marker it may trigger, the header row, a separator
    row of exactly [k] column markers for [k] headers, one line per data
    row with that row's own cells in their order, and a blank line; with no
    header it pushes nothing. *)
Theorem table_rows (before after : list InnerPageParagraph)
  (b : InnerPageParagraph) (t : TableData) :
  style b = "table" ->
  table b = Value t ->
  generateInnerPagesMarkdown (before ++ b :: after)
  = (generateInnerPagesMarkdown before
     ++ markerLines (markerOf (lastPage None before) b)
     ++ match headers t with
        | [] => []
        | _ :: _ =>
            [("| " ++ String.concat " | " (headers t) ++ " |")%string;
             ("| "
              ++ String.concat " | " (repeat "---" (List.length (headers t)))
              ++ " |")%string]
            ++ map (fun cells =>
                      ("| " ++ String.concat " | " cells ++ " |")%string)
                 (rows t)
            ++ [""]
        end
     ++ flat_map blockLines
          (combine (markers (lastPage None (before ++ [b])) after) after))%list.
Proof.
  intros Hs Ht. rewrite render_block. do 2 f_equal.
  unfold styleLines. rewrite Hs, Ht. cbn.
  unfold tableLines. rewrite map_const_repeat.
  now destruct (headers t).
Qed.

(** C10. With a missing text, wherever the block stands in the sequence,
    every text-rendering style still pushes its formatted lines around the
    empty string, after the marker the block may trigger; only the fallback
    for an unrecognized tag pushes nothing. *)
Theorem missing_text (before after : list InnerPageParagraph)
  (b : InnerPageParagraph) :
  text_missing b = true ->
  let rendered pushed :=
    generateInnerPagesMarkdown (before ++ b :: after)
    = (generateInnerPagesMarkdown before
       ++ markerLines (markerOf (lastPage None before) b)
       ++ pushed
       ++ flat_map blockLines
            (combine (markers (lastPage None (before ++ [b])) after) after))%list
  in
  (forall pushed,
     In (style b, pushed)
       [("chapter heading", ["## "; ""]);
        ("subheading 1", ["### "; ""]);
        ("subheading 2", ["#### "; ""]);
        ("body text", [""; ""]);
        ("callout", ["> ****"; ""]);
        ("exhibit title", ["****"; ""]);
        ("exhibit source", ["**"; ""]);
        ("bullet level 1", ["- "]);
        ("bullet level 2", ["  - "]);
        ("bullet level 3", ["    - "]);
        ("footnote", ["<sup></sup>"; ""])] ->
     rendered pushed /\ pushed <> [])
  /\ (~ In (style b)
          ["page header"; "chapter heading"; "subheading 1"; "subheading 2";
           "body text"; "callout"; "exhibit title"; "exhibit source";
           "bullet level 1"; "bullet level 2"; "bullet level 3";
           "page footer"; "footnote"; "table"] ->
      rendered []).
Proof.
  intros Hm rendered. unfold rendered. rewrite render_block.
  assert (Ht : match text b with Value t => t | _ => "" end = "").
  { unfold text_missing in Hm. destruct (text b) as [| |t]; try reflexivity.
    now apply String.eqb_eq in Hm. }
  split.
  - intros pushed Hin. unfold styleLines. rewrite Ht.
    simpl in Hin.
    repeat (destruct Hin as [Hin | Hin];
            [injection Hin as Hs <-; rewrite <- Hs;
             split; [reflexivity | discriminate]|]).
    contradiction.
  - intro Hun. do 2 f_equal. unfold styleLines. rewrite Ht.
    style_ne Hun. reflexivity.
Qed.

(** * Properties of the rest of the program *)

(** ** Loading a schema *)

Lemma optional_get_spec (x : option json) (k : string) :
  optional_get x k
  = Ok (match x with Some p => member p k | None => None end).
Proof. destruct x as [[]|]; reflexivity. Qed.

Lemma or_else_truthy (x : option json) (d : json) :
  truthy d = true -> truthy (or_else x d) = true.
Proof.
  intro Hd. unfold or_else.
  destruct (truthy_val x) as [v|] eqn:E; [|exact Hd].
  now apply truthy_val_Some in E.
Qed.

Lemma is_null_false (v : json) : is_null v = false <-> v <> JNull.
Proof. destruct v; simpl; split; congruence. Qed.

Lemma build_returns_bool (schema : SchemaDefinition) :
  firstPageSchema schema <> JNull ->
  returns (buildFirstPageJsonSchema schema)
  = forallb (fun e => negb (is_null (snd e)))
      (Object_entries (rawProperties schema)).
Proof.
  intro Hnn.
  assert (R : returns (buildFirstPageJsonSchema schema)
              = returns (strictSchema schema)).
  { unfold buildFirstPageJsonSchema. now destruct (strictSchema schema). }
  rewrite R. destruct (forallb _ _) eqn:F.
  - apply strictSchema_returns. split; [exact Hnn|].
    now apply forallb_not_null.
  - destruct (returns (strictSchema schema)) eqn:Rs; [|reflexivity].
    apply strictSchema_returns in Rs. destruct Rs as [_ Rs].
    apply forallb_not_null in Rs. congruence.
Qed.

Lemma prompt_returns (schema : json) (schemaName : string) :
  schema <> JNull ->
  generateFirstPagePrompt schema schemaName
  = Ok (promptTemplate (reportTypeLabel schemaName)
          (join nl
             (map (String.append "- ")
                (Object_keys (or_else (member schema "properties") (JObj [])))))).
Proof.
  intro Hnn. unfold generateFirstPagePrompt.
  now rewrite get_prop_not_null.
Qed.

(** The first-page and inner-pages nodes that [loadSchema] selects. *)
Lemma schemaDefinitionOf_spec (rt : Runtime) (file : string) (schema : json) :
  schema <> JNull ->
  let node k :=
    or_else (match member schema "properties" with
             | Some p => member p k
             | None => None
             end) (JObj []) in
  let schemaName := path_basename rt file ".json" in
  schemaDefinitionOf rt file schema
  = Ok {| name := schemaName;
          firstPageSchema := node "firstPage";
          innerPagesSchema := node "innerPagesParagraphs";
          firstPagePrompt :=
            promptTemplate (reportTypeLabel schemaName)
              (join nl
                 (map (String.append "- ")
                    (Object_keys
                       (or_else (member (node "firstPage") "properties")
                          (JObj []))))) |}.
Proof.
  intros Hnn node schemaName. unfold schemaDefinitionOf.
  rewrite !get_prop_not_null by exact Hnn. cbn [bind].
  rewrite !optional_get_spec. cbn [bind].
  fold (node "firstPage") (node "innerPagesParagraphs") schemaName.
  rewrite prompt_returns; [reflexivity|].
  apply truthy_not_null, or_else_truthy. reflexivity.
Qed.

(** X1. Loading fails exactly when the file cannot be read or parsed or
    when the document is [null], and every failure is reported with the
    file name in front. *)
Theorem loadSchema_failures (rt : Runtime) (file : string)
  (parsed : result json) :
  returns (loadSchema rt file parsed)
  = match parsed with
    | Ok schema => negb (is_null schema)
    | Throw _ => false
    end
  /\ forall e,
       loadSchema rt file parsed = Throw e ->
       exists cause,
         e = "Failed to load schema from " ++ file ++ ": " ++ cause.
Proof.
  unfold loadSchema. destruct parsed as [schema|cause]; cbn [bind].
  - destruct schema as [| b | n | s | xs | o];
      try (rewrite schemaDefinitionOf_spec by discriminate;
           split; [reflexivity | discriminate]).
    split; [reflexivity|]. intros e [= <-]. eexists. reflexivity.
  - split; [reflexivity|]. intros e [= <-]. eexists. reflexivity.
Qed.

(** X2. A loaded definition is consistent: its name is the base name of
    the file, its two schema nodes are never [null] or otherwise falsy, its
    prompt is the prompt of its own first-page node and name, and the
    first-page normalizer returns on it exactly when none of its declared
    properties is [null]. *)
Theorem loadSchema_definition (rt : Runtime) (file : string) (schema : json)
  (d : SchemaDefinition) :
  loadSchema rt file (Ok schema) = Ok d ->
  name d = path_basename rt file ".json"
  /\ truthy (firstPageSchema d) = true
  /\ truthy (innerPagesSchema d) = true
  /\ generateFirstPagePrompt (firstPageSchema d) (name d)
     = Ok (firstPagePrompt d)
  /\ returns (buildFirstPageJsonSchema d)
     = forallb (fun e => negb (is_null (snd e)))
         (Object_entries (rawProperties d))
  /\ (wf_json schema = true -> wf_json (firstPageSchema d) = true).
Proof.
  unfold loadSchema. cbn [bind]. intro H.
  assert (Hnn : schema <> JNull).
  { intros ->. discriminate H. }
  rewrite schemaDefinitionOf_spec in H by exact Hnn. cbv zeta in H.
  injection H as <-. cbn [name firstPageSchema innerPagesSchema firstPagePrompt].
  set (fp := or_else _ (JObj [])).
  assert (Hfp : truthy fp = true) by (apply or_else_truthy; reflexivity).
  split; [reflexivity|]. split; [exact Hfp|].
  split; [apply or_else_truthy; reflexivity|].
  split; [apply prompt_returns; now apply truthy_not_null|].
  split.
  - apply build_returns_bool. now apply truthy_not_null.
  - intro Hwf. unfold fp, or_else.
    destruct (truthy_val _) as [v|] eqn:E; [|reflexivity].
    apply truthy_val_Some in E. destruct E as [E _].
    destruct (member schema "properties") as [p|] eqn:P; [|discriminate].
    eapply wf_member; [|exact E]. eapply wf_member; eauto.
Qed.

(** X3. A document that is not [null] and has no [properties.firstPage]
    still loads: the first-page node is the empty object, the prompt lists
    no field, and the normalizer returns the empty strict schema. *)
Theorem loadSchema_without_firstPage (rt : Runtime) (file : string)
  (schema : json) :
  is_null schema = false ->
  match member schema "properties" with
  | Some p => member p "firstPage"
  | None => None
  end = None ->
  exists d,
    loadSchema rt file (Ok schema) = Ok d
    /\ firstPageSchema d = JObj []
    /\ firstPagePrompt d = promptTemplate (reportTypeLabel (name d)) ""
    /\ buildFirstPageJsonSchema d = Ok (responseFormat (strictObject [] [])).
Proof.
  intros Hn Hfp. apply is_null_false in Hn.
  unfold loadSchema. cbn [bind].
  rewrite schemaDefinitionOf_spec by exact Hn. cbv zeta.
  rewrite Hfp. eexists. split; [reflexivity|].
  repeat split.
Qed.

(** X4. The prompt asks for exactly the fields the strict schema
    requires, in the same order. *)
Theorem prompt_lists_required_fields (schema : SchemaDefinition)
  (schemaName : string) (s : json) :
  wf_json (firstPageSchema schema) = true ->
  buildFirstPageJsonSchema schema = Ok (responseFormat s) ->
  exists fields,
    member s "required" = Some (JArr (map JStr fields))
    /\ generateFirstPagePrompt (firstPageSchema schema) schemaName
       = Ok (promptTemplate (reportTypeLabel schemaName)
               (join nl (map (String.append "- ") fields))).
Proof.
  intros Hwf H.
  destruct (build_schema_inv _ _ Hwf H) as (Hnn & _ & ->).
  exists (map fst (Object_entries (rawProperties schema))).
  split; [reflexivity|]. now apply prompt_returns.
Qed.

(** ** What the normalizer keeps and what it drops *)

Lemma build_property (schema : SchemaDefinition) (s : json) (key : string)
  (raw : json) :
  wf_json (firstPageSchema schema) = true ->
  buildFirstPageJsonSchema schema = Ok (responseFormat s) ->
  In (key, raw) (Object_entries (rawProperties schema)) ->
  key <> "__proto__" ->
  exists props,
    member s "properties" = Some (JObj props)
    /\ lookup key props = Some (normalized raw).
Proof.
  intros Hwf H Hin Hkey.
  destruct (build_schema_inv _ _ Hwf H) as (Hnn & Hall & ->).
  destruct (wf_own_entries _ (wf_rawProperties _ Hwf)) as [Hnd Hv].
  exists (map normEntry (declared (Object_entries (rawProperties schema)))).
  split; [reflexivity|].
  apply lookup_NoDup_In.
  - rewrite map_fst_normEntry. now apply NoDup_keys_filter.
  - apply in_map_iff. exists (key, raw).
    split; [reflexivity | now apply declared_In].
Qed.

(** X5. Apart from [format], the normalizer copies what it does not
    rebuild: a declared property, not named [__proto__], that is neither an
    object with properties nor an array of objects with properties keeps
    every keyword other than [format], with its value and in order; and a
    property that is no array with items keeps no [format] of its own. *)
Theorem copied_properties (schema : SchemaDefinition) (s : json)
  (key : string) (raw : json) :
  wf_json (firstPageSchema schema) = true ->
  buildFirstPageJsonSchema schema = Ok (responseFormat s) ->
  In (key, raw) (Object_entries (rawProperties schema)) ->
  key <> "__proto__" ->
  classify raw = Leaf \/ classify raw = ArrayOther ->
  exists props v,
    member s "properties" = Some (JObj props)
    /\ lookup key props = Some v
    /\ obj_delete "format" (Object_entries v)
       = obj_delete "format" (Object_entries raw)
    /\ (forall k, k <> "format" ->
        lookup k (Object_entries v) = lookup k (Object_entries raw))
    /\ (classify raw = Leaf -> lookup "format" (Object_entries v) = None).
Proof.
  intros Hwf H Hin Hkey Hcopy.
  destruct (build_property _ _ _ _ Hwf H Hin Hkey) as (props & Hp & Hl).
  exists props, (normalized raw). split; [exact Hp|]. split; [exact Hl|].
  destruct (classify_cases raw)
    as [(items & ps & Ha & Ho & C) | [(items & Ha & Ho & C)
       | [(ps & Ha & Ho & C) | (Ha & Ho & C)]]];
    unfold normalized; rewrite C in *.
  - destruct Hcopy; discriminate.
  - rewrite (arrayItems_is_object _ _ Ha).
    split; [reflexivity|]. split; [reflexivity | discriminate].
  - destruct Hcopy; discriminate.
  - unfold cleanProp, spread. cbn [Object_entries own_entries].
    split; [apply obj_delete_idem|].
    split; [intros k Hk; now apply lookup_delete_ne|].
    intros _. apply lookup_not_In. intro Hf.
    apply in_map_iff in Hf. destruct Hf as [[k x] [E Hf]].
    apply filter_In in Hf. destruct Hf as [_ Hf]. cbn [fst] in *. subst k.
    discriminate.
Qed.

(** X6. A nested object and an array of objects are rebuilt: whatever other
    keywords the property or its item object carried (a description, a
    bound) are dropped, the nested property names are kept in order but for
    [__proto__], and every nested property that is kept is copied without
    its [format] and with every other keyword. *)
Theorem rebuilt_properties (schema : SchemaDefinition) (s : json)
  (key : string) (raw : json) :
  wf_json (firstPageSchema schema) = true ->
  buildFirstPageJsonSchema schema = Ok (responseFormat s) ->
  In (key, raw) (Object_entries (rawProperties schema)) ->
  key <> "__proto__" ->
  exists props v,
    member s "properties" = Some (JObj props)
    /\ lookup key props = Some v
    /\ (forall properties,
          arrayItems raw = None -> objectProperties raw = Some properties ->
          Object_keys v
          = ["type"; "properties"; "required"; "additionalProperties"]
          /\ exists nested,
               member v "properties" = Some (JObj nested)
               /\ map fst nested = filter ordinary (Object_keys properties)
               /\ forall k f,
                    In (k, f) (Object_entries properties) ->
                    k <> "__proto__" ->
                    lookup k nested
                    = Some (JObj (obj_delete "format" (Object_entries f))))
    /\ (forall items itemProperties,
          arrayItems raw = Some items ->
          objectProperties items = Some itemProperties ->
          Object_keys v = ["type"; "items"]
          /\ exists rebuilt nested,
               member v "items" = Some rebuilt
               /\ Object_keys rebuilt
                  = ["type"; "properties"; "required"; "additionalProperties"]
               /\ member rebuilt "properties" = Some (JObj nested)
               /\ map fst nested = filter ordinary (Object_keys itemProperties)
               /\ forall k f,
                    In (k, f) (Object_entries itemProperties) ->
                    k <> "__proto__" ->
                    lookup k nested
                    = Some (JObj (obj_delete "format" (Object_entries f)))).
Proof.
  intros Hwf H Hin Hkey.
  destruct (build_property _ _ _ _ Hwf H Hin Hkey) as (props & Hp & Hl).
  assert (Hraw : wf_json raw = true).
  { destruct (wf_own_entries _ (wf_rawProperties _ Hwf)) as [_ Hv]. eauto. }
  assert (Hnested : forall ps, wf_json ps = true ->
            forall k f, In (k, f) (Object_entries ps) -> k <> "__proto__" ->
              lookup k (map cleanEntry (declared (Object_entries ps)))
              = Some (JObj (obj_delete "format" (Object_entries f)))).
  { intros ps Hps k f Hf Hk.
    destruct (wf_own_entries _ Hps) as [Hnd _].
    apply lookup_NoDup_In.
    - rewrite map_fst_cleanEntry. now apply NoDup_keys_filter.
    - apply in_map_iff. exists (k, f).
      split; [reflexivity | now apply declared_In]. }
  exists props, (normalized raw). split; [exact Hp|]. split; [exact Hl|].
  unfold normalized, classify. split.
  - intros ps Ha Ho. rewrite Ha, Ho. split; [reflexivity|].
    exists (map cleanEntry (declared (Object_entries ps))).
    split; [reflexivity|].
    split; [rewrite map_fst_cleanEntry; apply declared_keys|].
    apply Hnested. eapply wf_objectProperties; eauto.
  - intros items ps Ha Ho. rewrite Ha, Ho. split; [reflexivity|].
    eexists. exists (map cleanEntry (declared (Object_entries ps))).
    split; [reflexivity|]. split; [reflexivity|]. split; [reflexivity|].
    split; [rewrite map_fst_cleanEntry; apply declared_keys|].
    apply Hnested. eapply wf_objectProperties; [|exact Ho].
    eapply wf_arrayItems; eauto.
Qed.

(** ** More on the renderers *)

(** X7. Rendering is incremental: appending blocks never changes what was
    rendered before them, and the appended blocks are rendered as
    if the loop started at the last page number present so far.  No line of
    any block is lost. *)
Theorem rendering_is_incremental (a b : list InnerPageParagraph) :
  generateInnerPagesMarkdown (a ++ b)
  = (generateInnerPagesMarkdown a
     ++ flat_map blockLines (combine (markers (lastPage None a) b) b))%list
  /\ forall x line,
       In x (a ++ b) -> In line (styleLines x) ->
       In line (generateInnerPagesMarkdown (a ++ b)).
Proof.
  split.
  - rewrite !render_flat_map, markers_app, pageAfter_lastPage.
    rewrite combine_app by apply markers_length.
    apply flat_map_app.
  - intros x line Hx Hl. rewrite render_flat_map.
    apply in_flat_map.
    assert (Hc : forall (blocks : list InnerPageParagraph) cur,
               In x blocks -> exists m, In (m, x) (combine (markers cur blocks) blocks)).
    { induction blocks as [|y blocks IH]; intros cur Hin; [destruct Hin|].
      destruct Hin as [<- | Hin]; simpl.
      - eexists. left. reflexivity.
      - match goal with
        | |- context [markers ?c blocks] =>
            destruct (IH c Hin) as [m Hm]
        end.
        exists m. right. exact Hm. }
    destruct (Hc _ None Hx) as [m Hm].
    exists (m, x). split; [exact Hm|].
    unfold blockLines. apply in_or_app. now right.
Qed.

Lemma string_app_assoc (a b c : string) : (a ++ b) ++ c = a ++ (b ++ c).
Proof. induction a; simpl; congruence. Qed.

Lemma join_assoc_cell (sep a b : string) (xs ys : list string) :
  join sep (xs ++ (a ++ sep ++ b)%string :: ys)%list
  = join sep (xs ++ a :: b :: ys)%list.
Proof.
  unfold join. induction xs as [|x xs IH].
  - destruct ys as [|y ys]; simpl; [reflexivity|].
    now rewrite !string_app_assoc.
  - rewrite <- !app_comm_cons.
    destruct xs as [|x' xs]; simpl in *; now rewrite IH.
Qed.

(** X8. The table renderer does not escape the cell separator: a cell that
    contains [ | ] renders exactly like two cells, so the rendered table
    does not determine the rows. *)
Theorem table_cells_not_escaped (t : TableData)
  (above below : list (list string)) (left right : list string)
  (a b : string) :
  tableLines
    (withRows t
       (above ++ (left ++ (a ++ " | " ++ b)%string :: right) :: below)%list)
  = tableLines
      (withRows t (above ++ (left ++ a :: b :: right) :: below)%list).
Proof.
  unfold tableLines, withRows. cbn [headers rows].
  destruct (0 <? List.length (headers t))%nat; [|reflexivity].
  rewrite !map_app. cbn [map]. unfold tableRow at 4 7.
  now rewrite join_assoc_cell.
Qed.

Lemma metadataRowOf_ext (p q : object) (entry : string * string) :
  lookup (fst entry) p = lookup (fst entry) q ->
  metadataRowOf p entry = metadataRowOf q entry.
Proof. unfold metadataRowOf. now intros ->. Qed.

Lemma metadataRowOf_length (p : object) (entry : string * string)
  (row : list (string * string)) :
  metadataRowOf p entry = Ok row -> (List.length row <= 1)%nat.
Proof.
  unfold metadataRowOf. destruct (lookup _ p) as [v|];
    [|intros [= <-]; apply le_0_n].
  destruct (is_null v); [intros [= <-]; apply le_0_n|].
  destruct (ToString v); cbn [bind]; [|discriminate].
  intros [= <-]. apply le_n.
Qed.

Lemma collect_length (A : Type) (steps : list (result (list A)))
  (all : list A) :
  (forall xs, In (Ok xs) steps -> (List.length xs <= 1)%nat) ->
  collect steps = Ok all ->
  (List.length all <= List.length steps)%nat.
Proof.
  revert all. induction steps as [|step steps IH]; intros all Hs H.
  - injection H as <-. apply le_n.
  - cbn [collect] in H. destruct step as [xs|e]; cbn [bind] in H;
      [|discriminate].
    destruct (collect steps) as [ys|e]; cbn [bind] in H; [|discriminate].
    injection H as <-. rewrite length_app. cbn [List.length].
    apply (Nat.add_le_mono _ 1 _ _ (Hs xs (or_introl eq_refl))).
    apply IH; [|reflexivity]. intros zs Hz. apply Hs. now right.
Qed.

(** X9. The metadata table depends on the first page only through the ten
    allowlisted fields: two records that agree on them give the same table,
    or the same error, whatever else they hold and in whatever order; and
    the table never has more than ten rows. *)
Theorem metadata_ignores_other_fields (p q : object) :
  (forall field, In field metadataFields -> lookup field p = lookup field q) ->
  metadataLines p = metadataLines q
  /\ (forall rows,
        displayMetadata p = Ok rows -> (List.length rows <= 10)%nat).
Proof.
  intro H. split.
  - unfold metadataLines. rewrite !displayMetadata_rows.
    assert (E : map (metadataRowOf p) metadataLabels
                = map (metadataRowOf q) metadataLabels).
    { apply map_ext_in. intros [field label] Hin.
      apply metadataRowOf_ext, H. cbn [fst].
      change metadataFields with (map fst metadataLabels).
      now apply (in_map fst) in Hin. }
    now rewrite E.
  - intros rows E. rewrite displayMetadata_rows in E.
    apply collect_length in E; [exact E|].
    intros xs Hin. apply in_map_iff in Hin. destruct Hin as [entry [Hrow _]].
    now apply metadataRowOf_length in Hrow.
Qed.

(** ** The extraction of a report *)

Lemma innerPagesLoop_spec (rt : Runtime)
  (analyzeInnerPage : string -> number -> result InnerPageResult)
  (paths : list string) (i : nat)
  (blocks : list InnerPageParagraph) (usages : list TokenUsage) :
  innerPagesLoop rt analyzeInnerPage i paths (blocks, usages)
  = ((blocks
      ++ flat_map (pageBlocks rt analyzeInnerPage)
           (innerPageInputs (i + 1) paths))%list,
     (usages
      ++ flat_map (pageUsage rt analyzeInnerPage)
           (innerPageInputs (i + 1) paths))%list).
Proof.
  revert i blocks usages.
  induction paths as [|p paths IH]; intros i blocks usages.
  - simpl. now rewrite !app_nil_r.
  - cbn [innerPagesLoop]. unfold innerPageInputs. cbn [List.length seq combine flat_map].
    fold (innerPageInputs (S (i + 1)) paths).
    unfold pageBlocks at 1, pageUsage at 1. cbn [fst snd].
    replace (S (i + 1)) with (S i + 1) by now rewrite Nat.add_succ_l.
    destruct (analyzeInnerPage p (number_of_nat rt (i + 1))) as [r|e];
      cbn [fst snd]; rewrite IH; now rewrite ?app_nil_l, <- ?app_assoc.
Qed.

Lemma imagePathsFrom_inputs {Image : Type} (rt : Runtime) (outputDir : string)
  (images : list Image) (page : nat) :
  Forall
    (fun input =>
       snd input
       = path_join rt
           [outputDir;
            number_to_string (number_of_nat rt (fst input)) ++ ".png"])
    (innerPageInputs page (imagePathsFrom rt outputDir page images)).
Proof.
  revert page. induction images as [|x images IH]; intro page.
  - constructor.
  - unfold innerPageInputs. cbn [imagePathsFrom List.length seq combine].
    constructor; [reflexivity|]. apply IH.
Qed.

Lemma imagePathsFrom_length {Image : Type} (rt : Runtime) (outputDir : string)
  (images : list Image) (page : nat) :
  List.length (imagePathsFrom rt outputDir page images) = List.length images.
Proof.
  revert page. induction images; intro; simpl; congruence.
Qed.

(** X10. The extraction fails exactly when the conversion of the PDF to
    images fails, when the PDF has no page, or when the analysis of the
    first page throws, each with its own error; the failures of inner pages
    never fail it. *)
Theorem extraction_failures {Image : Type} (rt : Runtime)
  (analyzeFirstPage : string -> result FirstPageResult)
  (analyzeInnerPage : string -> number -> result InnerPageResult)
  (outputBaseDirectory pdfPath : string) (converted : result (list Image)) :
  let outputDir :=
    path_join rt
      [outputBaseDirectory; path_basename rt pdfPath ".pdf"; "pages"] in
  let firstPageImage :=
    path_join rt [outputDir; number_to_string (number_of_nat rt 1) ++ ".png"] in
  let extraction :=
    extractReport rt analyzeFirstPage analyzeInnerPage
      outputBaseDirectory pdfPath converted in
  returns extraction
  = match converted with
    | Throw _ => false
    | Ok [] => false
    | Ok (_ :: _) => returns (analyzeFirstPage firstPageImage)
    end
  /\ (forall e, converted = Throw e -> extraction = Throw e)
  /\ (converted = Ok [] ->
      extraction = Throw "No pages were converted from PDF")
  /\ (forall image images e,
        converted = Ok (image :: images) ->
        analyzeFirstPage firstPageImage = Throw e ->
        extraction = Throw e).
Proof.
  intros outputDir firstPageImage extraction.
  unfold extraction, extractReport, convertPdfToImages.
  fold outputDir.
  destruct converted as [[|x images]|e0]; cbn [bind imagePaths imagePathsFrom];
    fold firstPageImage.
  - repeat split; try reflexivity; discriminate.
  - split; [|split; [discriminate|split; [discriminate|]]].
    + destruct (analyzeFirstPage firstPageImage) as [r|e]; cbn [bind];
        [|reflexivity].
      now destruct (innerPagesLoop _ _ _ _ _).
    + intros image images' e _ ->. reflexivity.
  - split; [reflexivity|]. split; [now intros e [= ->]|].
    split; discriminate.
Qed.

Lemma innerPageInputs_pages {Image : Type} (rt : Runtime) (outputDir : string)
  (images : list Image) (from : nat) :
  map fst (innerPageInputs from (imagePathsFrom rt outputDir from images))
  = seq from (List.length images).
Proof.
  unfold innerPageInputs. rewrite imagePathsFrom_length.
  revert from. induction images as [|y images IH]; intro from; [reflexivity|].
  cbn [imagePathsFrom List.length seq combine map fst]. f_equal.
  apply IH.
Qed.

Lemma extractReport_inv {Image : Type} (rt : Runtime)
  (analyzeFirstPage : string -> result FirstPageResult)
  (analyzeInnerPage : string -> number -> result InnerPageResult)
  (outputBaseDirectory pdfPath : string) (images : list Image)
  (report : Report) (usage : TokenUsage) :
  extractReport rt analyzeFirstPage analyzeInnerPage
    outputBaseDirectory pdfPath (Ok images)
  = Ok (report, usage) ->
  let outputDir :=
    path_join rt
      [outputBaseDirectory; path_basename rt pdfPath ".pdf"; "pages"] in
  let inputs :=
    innerPageInputs 2 (imagePathsFrom rt outputDir 2 (tl images)) in
  exists first,
    analyzeFirstPage
      (path_join rt
         [outputDir; number_to_string (number_of_nat rt 1) ++ ".png"])
    = Ok first
    /\ report
       = {| firstPage := data first;
            innerPagesParagraphs :=
              flat_map (pageBlocks rt analyzeInnerPage) inputs |}
    /\ usage
       = aggregateTokenUsage rt
           (firstTokenUsage first
            :: flat_map (pageUsage rt analyzeInnerPage) inputs).
Proof.
  intros H outputDir inputs.
  unfold extractReport, convertPdfToImages in H. cbn [bind imagePaths] in H.
  fold outputDir in H.
  destruct images as [|x images]; cbn [imagePathsFrom] in H; [discriminate|].
  destruct (analyzeFirstPage _) as [first|e]; cbn [bind] in H;
    [|discriminate].
  rewrite innerPagesLoop_spec in H. cbn [app Nat.add] in H.
  injection H as <- <-.
  exists first. repeat split.
Qed.

(** X11. When the extraction returns, the report holds the data of the
    first page and, page after page, the blocks of every inner page whose
    analysis returned; a page whose analysis throws contributes no block
    and no token usage and does not stop the pages after it; the image
    [k.png] is analysed as page [k], from page 2 on; and the total token
    usage aggregates the usage of the first page and of the inner pages
    analysed, in page order. *)
Theorem extraction_result {Image : Type} (rt : Runtime)
  (analyzeFirstPage : string -> result FirstPageResult)
  (analyzeInnerPage : string -> number -> result InnerPageResult)
  (outputBaseDirectory pdfPath : string) (images : list Image)
  (report : Report) (usage : TokenUsage) :
  extractReport rt analyzeFirstPage analyzeInnerPage
    outputBaseDirectory pdfPath (Ok images)
  = Ok (report, usage) ->
  let outputDir :=
    path_join rt
      [outputBaseDirectory; path_basename rt pdfPath ".pdf"; "pages"] in
  let file k :=
    path_join rt [outputDir; number_to_string (number_of_nat rt k) ++ ".png"] in
  let inputs :=
    innerPageInputs 2 (imagePathsFrom rt outputDir 2 (tl images)) in
  exists first,
    analyzeFirstPage (file 1) = Ok first
    /\ firstPage report = data first
    /\ innerPagesParagraphs report
       = flat_map (pageBlocks rt analyzeInnerPage) inputs
    /\ usage
       = aggregateTokenUsage rt
           (firstTokenUsage first
            :: flat_map (pageUsage rt analyzeInnerPage) inputs)
    /\ map fst inputs = seq 2 (List.length images - 1)
    /\ Forall (fun input => snd input = file (fst input)) inputs.
Proof.
  intros H outputDir file inputs.
  destruct (extractReport_inv _ _ _ _ _ _ _ _ H) as (first & Hf & -> & ->).
  exists first. split; [exact Hf|].
  split; [reflexivity|]. split; [reflexivity|]. split; [reflexivity|].
  split.
  - unfold inputs. rewrite innerPageInputs_pages.
    destruct images as [|x images]; [reflexivity|].
    cbn [tl]. f_equal. simpl. now rewrite Nat.sub_0_r.
  - apply imagePathsFrom_inputs.
Qed.

Lemma pageBlocks_pages (rt : Runtime)
  (analyzeInnerPage : string -> number -> result InnerPageResult)
  (input : nat * string) :
  exists blocks,
    pageBlocks rt analyzeInnerPage input
    = map (withPageNumber (number_of_nat rt (fst input))) blocks.
Proof.
  unfold pageBlocks. destruct (analyzeInnerPage _ _) as [r|e].
  - now exists (paragraphs r).
  - now exists [].
Qed.

(** X12. Every block of an extracted report is a block that the analysis
    of an inner page returned, and it carries the number of that page,
    whatever page number the analyzer may have returned with it: for some
    [k] from 2 to the number of pages, the analysis of the image [k.png] as
    page [k] returned it, and its page number is [k]. *)
Theorem extracted_blocks_are_numbered {Image : Type} (rt : Runtime)
  (analyzeFirstPage : string -> result FirstPageResult)
  (analyzeInnerPage : string -> number -> result InnerPageResult)
  (outputBaseDirectory pdfPath : string) (images : list Image)
  (report : Report) (usage : TokenUsage) :
  extractReport rt analyzeFirstPage analyzeInnerPage
    outputBaseDirectory pdfPath (Ok images)
  = Ok (report, usage) ->
  let outputDir :=
    path_join rt
      [outputBaseDirectory; path_basename rt pdfPath ".pdf"; "pages"] in
  let file k :=
    path_join rt [outputDir; number_to_string (number_of_nat rt k) ++ ".png"] in
  Forall
    (fun b =>
       exists k analysis p,
         (2 <= k <= List.length images)%nat
         /\ analyzeInnerPage (file k) (number_of_nat rt k) = Ok analysis
         /\ In p (paragraphs analysis)
         /\ style b = style p /\ text b = text p /\ table b = table p
         /\ pageNumber b = Some (number_of_nat rt k))
    (innerPagesParagraphs report).
Proof.
  intros H outputDir file.
  destruct (extractReport_inv _ _ _ _ _ _ _ _ H) as (first & _ & -> & _).
  cbn [innerPagesParagraphs]. fold outputDir.
  pose proof (innerPageInputs_pages rt outputDir (tl images) 2) as Hk.
  pose proof (imagePathsFrom_inputs rt outputDir (tl images) 2) as Hf.
  rewrite Forall_forall in Hf.
  apply Forall_forall. intros b Hb.
  apply in_flat_map in Hb. destruct Hb as [[k path] [Hin Hb]].
  specialize (Hf _ Hin). cbn [fst snd] in Hf. fold (file k) in Hf. subst path.
  unfold pageBlocks in Hb. cbn [fst snd] in Hb.
  destruct (analyzeInnerPage (file k) (number_of_nat rt k)) as [analysis|e]
    eqn:A; [|destruct Hb].
  apply in_map_iff in Hb. destruct Hb as [p [<- Hp]].
  exists k, analysis, p.
  assert (Hk' : In k (seq 2 (List.length (tl images)))).
  { rewrite <- Hk. change k with (fst (k, file k)). now apply in_map. }
  apply in_seq in Hk'.
  split; [destruct images; cbn [tl List.length] in *; lia|].
  repeat split; assumption.
Qed.

Lemma emitted_app (xs ys : list (option number)) :
  emitted (xs ++ ys) = (emitted xs ++ emitted ys)%list.
Proof. apply flat_map_app. Qed.

Lemma differs_same (page : number) : differs page (Some page) = false.
Proof. unfold differs. now destruct (number_eq_dec page page). Qed.

Lemma differs_other (page other : number) :
  page <> other -> differs page (Some other) = true.
Proof. intro H. unfold differs. now destruct (number_eq_dec page other). Qed.

Lemma markers_same_page (page : number) (blocks : list InnerPageParagraph) :
  emitted (markers (Some page) (map (withPageNumber page) blocks)) = []
  /\ pageAfter (Some page) (map (withPageNumber page) blocks) = Some page.
Proof.
  induction blocks as [|b blocks [IH1 IH2]]; [split; reflexivity|].
  cbn [map markers pageAfter]. unfold markerOf. cbn [withPageNumber pageNumber].
  rewrite differs_same. cbn [emitted flat_map app]. now split.
Qed.

Lemma markers_new_page (page : number) (currentPage : option number)
  (b : InnerPageParagraph) (blocks : list InnerPageParagraph) :
  differs page currentPage = true ->
  emitted (markers currentPage (map (withPageNumber page) (b :: blocks)))
  = [page]
  /\ pageAfter currentPage (map (withPageNumber page) (b :: blocks))
     = Some page.
Proof.
  intro D. cbn [map markers pageAfter]. unfold markerOf.
  cbn [withPageNumber pageNumber]. rewrite D.
  destruct (markers_same_page page blocks) as [E1 E2].
  unfold emitted in *. cbn [flat_map]. rewrite E1. now split.
Qed.

Lemma markers_of_pages (rt : Runtime)
  (analyzeInnerPage : string -> number -> result InnerPageResult)
  (inputs : list (nat * string)) (currentPage : option number) :
  (forall i j, number_of_nat rt i = number_of_nat rt j -> i = j) ->
  NoDup (map fst inputs) ->
  (forall input, In input inputs ->
                 differs (number_of_nat rt (fst input)) currentPage = true) ->
  emitted (markers currentPage (flat_map (pageBlocks rt analyzeInnerPage) inputs))
  = map (fun input => number_of_nat rt (fst input))
      (filter (hasBlocks rt analyzeInnerPage) inputs).
Proof.
  intros Hinj. revert currentPage.
  induction inputs as [|input inputs IH]; intros currentPage Hnd Hd;
    [reflexivity|].
  inversion Hnd as [|? ? Hk Hrest]; subst.
  cbn [flat_map filter]. unfold hasBlocks at 1.
  destruct (pageBlocks_pages rt analyzeInnerPage input) as [blocks E].
  rewrite E. destruct blocks as [|b blocks].
  - cbn [map app]. apply IH; [exact Hrest|].
    intros x Hx. apply Hd. now right.
  - rewrite markers_app, emitted_app.
    destruct (markers_new_page (number_of_nat rt (fst input)) currentPage
                b blocks (Hd input (or_introl eq_refl))) as [E1 E2].
    rewrite E1, E2. cbn [map app]. f_equal.
    apply IH; [exact Hrest|].
    intros x Hx. apply differs_other. intro Heq. apply Hinj in Heq.
    apply Hk. rewrite <- Heq. now apply in_map.
Qed.

(** X13. In the rendering of an extracted report, every inner page that
    contributed at least one block gets exactly one page marker, in page
    order, and a page that contributed none (its analysis threw, or found
    nothing) gets none; no marker is repeated. *)
Theorem one_marker_per_extracted_page {Image : Type} (rt : Runtime)
  (analyzeFirstPage : string -> result FirstPageResult)
  (analyzeInnerPage : string -> number -> result InnerPageResult)
  (outputBaseDirectory pdfPath : string) (images : list Image)
  (report : Report) (usage : TokenUsage) :
  (forall i j, number_of_nat rt i = number_of_nat rt j -> i = j) ->
  extractReport rt analyzeFirstPage analyzeInnerPage
    outputBaseDirectory pdfPath (Ok images)
  = Ok (report, usage) ->
  let outputDir :=
    path_join rt
      [outputBaseDirectory; path_basename rt pdfPath ".pdf"; "pages"] in
  let inputs :=
    innerPageInputs 2 (imagePathsFrom rt outputDir 2 (tl images)) in
  let pushed := emitted (markers None (innerPagesParagraphs report)) in
  generateInnerPagesMarkdown (innerPagesParagraphs report)
  = flat_map blockLines
      (combine (markers None (innerPagesParagraphs report))
         (innerPagesParagraphs report))
  /\ pushed
     = map (fun input => number_of_nat rt (fst input))
         (filter (hasBlocks rt analyzeInnerPage) inputs)
  /\ NoDup pushed.
Proof.
  intros Hinj H outputDir inputs pushed.
  destruct (extractReport_inv _ _ _ _ _ _ _ _ H) as (first & _ & Hr & _).
  assert (Hb : innerPagesParagraphs report
               = flat_map (pageBlocks rt analyzeInnerPage) inputs)
    by now rewrite Hr.
  assert (Hnd : NoDup (map fst inputs)).
  { unfold inputs. rewrite innerPageInputs_pages. apply seq_NoDup. }
  assert (E : pushed
              = map (fun input => number_of_nat rt (fst input))
                  (filter (hasBlocks rt analyzeInnerPage) inputs)).
  { unfold pushed. rewrite Hb.
    apply markers_of_pages; [exact Hinj | exact Hnd | reflexivity]. }
  split; [apply render_flat_map|]. split; [exact E|].
  rewrite E. clear E pushed Hb Hr.
  induction inputs as [|input inputs IH]; [constructor|].
  inversion Hnd as [|? ? Hk Hrest]; subst.
  cbn [filter]. destruct (hasBlocks rt analyzeInnerPage input); [|auto].
  cbn [map]. constructor; [|auto].
  intro Hin. apply in_map_iff in Hin. destruct Hin as [x [Heq Hx]].
  apply Hinj in Heq. apply filter_In in Hx. destruct Hx as [Hx _].
  apply Hk. rewrite <- Heq. now apply in_map.
Qed.

(** ** The statistics table and its recovery *)

Lemma clashes_dropPrefix (literal t rest : string) :
  clashes literal t = true -> dropPrefix literal (t ++ rest) = None.
Proof.
  revert t. induction literal as [|a literal IH]; intros [|b t]; simpl;
    try discriminate.
  destruct (Ascii.eqb a b); [apply IH | reflexivity].
Qed.

Lemma clashes_captureHere (literal t rest : string) (cls : ascii -> bool) :
  clashes literal t = true -> captureHere literal cls (t ++ rest) = None.
Proof.
  intro H. unfold captureHere. now rewrite clashes_dropPrefix.
Qed.

Lemma skip_constant (literal c rest : string) (cls : ascii -> bool) :
  skippable literal c = true ->
  firstCapture literal cls (c ++ rest) = firstCapture literal cls rest.
Proof.
  induction c as [|x c IH]; [reflexivity|].
  cbn [skippable]. intro H. apply andb_true_iff in H. destruct H as [H1 H2].
  change (String x c ++ rest) with (String x (c ++ rest)).
  cbn [firstCapture].
  change (String x (c ++ rest)) with (String x c ++ rest).
  rewrite clashes_captureHere by exact H1. now apply IH.
Qed.

Lemma row_end_safe_dropPrefix (literal s rest : string) :
  row_end_safe literal = true -> pipe_free s = true ->
  dropPrefix literal (s ++ rowEnd ++ rest) = None.
Proof.
  revert s. induction literal as [|a literal IH]; intros s Hl Hs;
    [discriminate|].
  cbn [row_end_safe] in Hl. apply andb_true_iff in Hl. destruct Hl as [H1 H2].
  destruct s as [|c s].
  - change ("" ++ rowEnd ++ rest) with (rowEnd ++ rest).
    now apply clashes_dropPrefix.
  - cbn [pipe_free all_in] in Hs. apply andb_true_iff in Hs.
    destruct Hs as [Hc Hs].
    change (String c s ++ rowEnd ++ rest) with (String c (s ++ rowEnd ++ rest)).
    cbn [dropPrefix].
    destruct (Ascii.eqb_spec a c) as [->|_]; [|reflexivity].
    rewrite (proj1 (negb_true_iff _) Hc) in H2. apply IH; assumption.
Qed.

Lemma skip_cell (literal s rest : string) (cls : ascii -> bool) :
  row_end_safe literal = true -> pipe_free s = true ->
  firstCapture literal cls (s ++ rowEnd ++ rest)
  = firstCapture literal cls (rowEnd ++ rest).
Proof.
  intro Hl. induction s as [|c s IH]; intro Hs; [reflexivity|].
  assert (Hs' : pipe_free s = true).
  { cbn [pipe_free all_in] in Hs. now apply andb_true_iff in Hs. }
  change (String c s ++ rowEnd ++ rest) with (String c (s ++ rowEnd ++ rest)).
  cbn [firstCapture]. unfold captureHere at 1.
  change (String c (s ++ rowEnd ++ rest)) with (String c s ++ rowEnd ++ rest).
  rewrite row_end_safe_dropPrefix by assumption. now apply IH.
Qed.

Lemma dropPrefix_app (literal rest : string) :
  dropPrefix literal (literal ++ rest) = Some rest.
Proof.
  induction literal as [|a literal IH]; [reflexivity|].
  simpl. now rewrite Ascii.eqb_refl.
Qed.

Lemma takeWhile_app (cls : ascii -> bool) (group : string) (x : ascii)
  (rest : string) :
  all_in cls group = true -> cls x = false ->
  takeWhile cls (group ++ String x rest) = group.
Proof.
  intros Hg Hx. induction group as [|c group IH]; simpl.
  - now rewrite Hx.
  - simpl in Hg. apply andb_true_iff in Hg. destruct Hg as [Hc Hg].
    now rewrite Hc, IH.
Qed.

Lemma capture_found (literal group : string) (cls : ascii -> bool)
  (x : ascii) (rest : string) :
  printed cls group = true -> cls x = false ->
  firstCapture literal cls (literal ++ group ++ String x rest) = Some group.
Proof.
  intros Hp Hx. apply andb_true_iff in Hp. destruct Hp as [Hne Hall].
  assert (E : captureHere literal cls (literal ++ group ++ String x rest)
              = Some group).
  { unfold captureHere. rewrite dropPrefix_app.
    rewrite takeWhile_app by assumption. now rewrite Hne. }
  destruct (literal ++ group ++ String x rest); cbn [firstCapture];
    now rewrite E.
Qed.

Lemma all_in_weaken (cls cls' : ascii -> bool) (s : string) :
  (forall c, cls c = true -> cls' c = true) ->
  all_in cls s = true -> all_in cls' s = true.
Proof.
  intro H. induction s as [|c s IH]; [reflexivity|]. simpl.
  intro Hs. apply andb_true_iff in Hs. destruct Hs as [Hc Hs].
  now rewrite (H c Hc), IH.
Qed.

Lemma printed_tokens_pipe_free (s : string) :
  printed digit_or_comma s = true -> pipe_free s = true.
Proof.
  intro H. apply andb_true_iff in H. destruct H as [_ H].
  revert H. apply all_in_weaken. intros c Hc.
  destruct (Ascii.eqb_spec c "|") as [->|]; [discriminate Hc | reflexivity].
Qed.

(** The text of the document, cell by cell. *)
Lemma generateMarkdown_text (rt : Runtime) (report : Report)
  (authors : option (list Author)) (bulletPoints : option (list string))
  (summaryParagraphs : option (list SummaryParagraph))
  (schemaName : string) (usage : TokenUsage) (cost : number) (md : string) :
  generateMarkdown rt report authors bulletPoints summaryParagraphs
    schemaName usage cost
  = Ok md ->
  exists document,
    documentLines report authors bulletPoints summaryParagraphs = Ok document
    /\ md
       = ("## 📊 Processing Statistics" ++ nl ++ nl ++ "| Metric | Value |" ++ nl
          ++ "|--------|-------|" ++ nl ++ "| Schema | ")
         ++ schemaName ++ rowEnd
         ++ "| " ++ "Input Tokens | "
         ++ number_toLocaleString rt (inputTokens usage) ++ rowEnd
         ++ "| " ++ "Output Tokens | "
         ++ number_toLocaleString rt (outputTokens usage) ++ rowEnd
         ++ "| " ++ "Total Tokens | "
         ++ number_toLocaleString rt (totalTokens usage) ++ rowEnd
         ++ "| **" ++ "Estimated Cost (USD)** | **$"
         ++ number_toFixed4 rt cost
         ++ String "*"
              ("* |" ++ nl ++ join nl ("" :: "---" :: "" :: document)).
Proof.
  unfold generateMarkdown.
  destruct (documentLines _ _ _ _) as [document|e]; cbn [bind];
    [|discriminate].
  intros [= <-]. exists document. split; [reflexivity|].
  unfold statisticsLines, join, rowEnd.
  cbn [app String.concat]. rewrite !string_app_assoc. reflexivity.
Qed.


Lemma capture_found_row (literal group rest : string) (cls : ascii -> bool) :
  printed cls group = true -> cls " "%char = false ->
  firstCapture literal cls (literal ++ group ++ rowEnd ++ rest) = Some group.
Proof.
  intros Hp Hx.
  change (rowEnd ++ rest) with (String " " (String "|" (nl ++ rest))).
  now apply capture_found.
Qed.

Ltac skip_text :=
  rewrite skip_constant by reflexivity.

Ltac skip_figure :=
  rewrite skip_cell
    by (reflexivity || assumption
        || (apply printed_tokens_pipe_free; assumption)).

(** Where the four patterns match in a document written by
    [generateMarkdown]. *)
Lemma captures_generated (rt : Runtime) (report : Report)
  (authors : option (list Author)) (bulletPoints : option (list string))
  (summaryParagraphs : option (list SummaryParagraph))
  (schemaName : string) (usage : TokenUsage) (cost : number) (md : string) :
  pipe_free schemaName = true ->
  printed digit_or_comma (number_toLocaleString rt (inputTokens usage)) = true ->
  printed digit_or_comma (number_toLocaleString rt (outputTokens usage)) = true ->
  printed digit_or_comma (number_toLocaleString rt (totalTokens usage)) = true ->
  printed digit_or_dot (number_toFixed4 rt cost) = true ->
  generateMarkdown rt report authors bulletPoints summaryParagraphs
    schemaName usage cost
  = Ok md ->
  firstCapture "Input Tokens | " digit_or_comma md
  = Some (number_toLocaleString rt (inputTokens usage))
  /\ firstCapture "Output Tokens | " digit_or_comma md
     = Some (number_toLocaleString rt (outputTokens usage))
  /\ firstCapture "Total Tokens | " digit_or_comma md
     = Some (number_toLocaleString rt (totalTokens usage))
  /\ firstCapture "Estimated Cost (USD)** | **$" digit_or_dot md
     = Some (number_toFixed4 rt cost).
Proof.
  intros Hs Hi Ho Ht Hc Hmd.
  apply generateMarkdown_text in Hmd. destruct Hmd as (document & _ & ->).
  repeat split.
  - skip_text. skip_figure. skip_text. skip_text.
    now apply capture_found_row.
  - skip_text. skip_figure. skip_text. skip_text. skip_text.
    skip_figure. skip_text. skip_text.
    now apply capture_found_row.
  - skip_text. skip_figure. skip_text. skip_text. skip_text.
    skip_figure. skip_text. skip_text. skip_text.
    skip_figure. skip_text. skip_text.
    now apply capture_found_row.
  - skip_text. skip_figure. skip_text. skip_text. skip_text.
    skip_figure. skip_text. skip_text. skip_text.
    skip_figure. skip_text. skip_text. skip_text.
    skip_figure. skip_text. skip_text.
    now apply capture_found.
Qed.


(** X15. Regeneration is stable: under the conditions of X14, and when
    printing a figure that was parsed back from its print gives that print
    again, regenerating the Markdown of an unchanged report from the file
    [generateMarkdown] wrote gives the same file; and where
    [generateMarkdown] throws, so does the regeneration, whatever file it
    finds. *)
Theorem regeneration_is_stable (rt : Runtime) (report : Report)
  (authors : option (list Author)) (bulletPoints : option (list string))
  (summaryParagraphs : option (list SummaryParagraph))
  (schemaName : string) (usage : TokenUsage) (cost : number) :
  let reprint n :=
    number_toLocaleString rt
      (number_parseInt rt (removeCommas (number_toLocaleString rt n))) in
  pipe_free schemaName = true ->
  printed digit_or_comma (number_toLocaleString rt (inputTokens usage)) = true ->
  printed digit_or_comma (number_toLocaleString rt (outputTokens usage)) = true ->
  printed digit_or_comma (number_toLocaleString rt (totalTokens usage)) = true ->
  printed digit_or_dot (number_toFixed4 rt cost) = true ->
  reprint (inputTokens usage) = number_toLocaleString rt (inputTokens usage) ->
  reprint (outputTokens usage) = number_toLocaleString rt (outputTokens usage) ->
  reprint (totalTokens usage) = number_toLocaleString rt (totalTokens usage) ->
  number_toFixed4 rt (number_parseFloat rt (number_toFixed4 rt cost))
  = number_toFixed4 rt cost ->
  match
    generateMarkdown rt report authors bulletPoints summaryParagraphs
      schemaName usage cost
  with
  | Ok md =>
      regenerateMarkdown rt report authors bulletPoints summaryParagraphs
        schemaName (Some md)
      = Ok md
  | Throw e =>
      forall existingMd,
        regenerateMarkdown rt report authors bulletPoints summaryParagraphs
          schemaName existingMd
        = Throw e
  end.
Proof.
  intros reprint Hs Hi Ho Ht Hc Ri Ro Rt Rc.
  destruct (generateMarkdown rt report authors bulletPoints summaryParagraphs
              schemaName usage cost) as [md|e] eqn:Hmd.
  - destruct (captures_generated rt report authors bulletPoints
                summaryParagraphs schemaName usage cost md Hs Hi Ho Ht Hc Hmd)
      as (E1 & E2 & E3 & E4).
    unfold regenerateMarkdown, recoverStatistics. cbv zeta.
    rewrite E1, E2, E3, E4. rewrite <- Hmd.
    unfold generateMarkdown, statisticsLines.
    cbn [inputTokens outputTokens totalTokens].
    unfold reprint in *. now rewrite Ri, Ro, Rt, Rc.
  - intro existingMd. unfold regenerateMarkdown.
    destruct (recoverStatistics rt existingMd) as [recovered recoveredCost].
    unfold generateMarkdown in *.
    destruct (documentLines report authors bulletPoints summaryParagraphs);
      cbn [bind] in *; [discriminate | exact Hmd].
Qed.

Lemma dropPrefix_Some (literal s rest : string) :
  dropPrefix literal s = Some rest -> s = literal ++ rest.
Proof.
  revert s. induction literal as [|a literal IH]; intros s; simpl.
  - now intros [= ->].
  - destruct s as [|b s]; [discriminate|].
    destruct (Ascii.eqb_spec a b) as [->|]; [|discriminate].
    intro H. apply IH in H. now rewrite H.
Qed.

Lemma firstCapture_includes (literal s group : string) (cls : ascii -> bool) :
  firstCapture literal cls s = Some group -> includes literal s = true.
Proof.
  intro H. apply includes_spec.
  induction s as [|c s IH]; cbn [firstCapture] in H;
    unfold captureHere in H;
    destruct (dropPrefix literal _) as [rest|] eqn:D.
  - apply dropPrefix_Some in D. exists "", rest. exact D.
  - discriminate.
  - apply dropPrefix_Some in D. exists "", rest. exact D.
  - destruct (IH H) as (pre & post & ->). now exists (String c pre), post.
Qed.

Lemma includes_suffix (a b s : string) :
  includes (a ++ b) s = true -> includes b s = true.
Proof.
  intro H. apply includes_spec in H. destruct H as (pre & post & ->).
  apply includes_spec. exists (pre ++ a), post.
  now rewrite !string_app_assoc.
Qed.

(** X16. The recovery is best effort: without a readable file, and in a
    file that holds neither [Tokens | ] nor [Cost (USD)** | **$], every
    figure is [0]. *)
Theorem statistics_default_to_zero (rt : Runtime) (existingMd : option string) :
  match existingMd with
  | None => True
  | Some md =>
      includes "Tokens | " md = false
      /\ includes "Cost (USD)** | **$" md = false
  end ->
  recoverStatistics rt existingMd = (zeroUsage rt, number_of_nat rt 0).
Proof.
  destruct existingMd as [md|]; [|reflexivity].
  intros [Ht Hc]. unfold recoverStatistics, zeroUsage.
  assert (N : forall a b cls,
             includes b md = false -> firstCapture (a ++ b) cls md = None).
  { intros a b cls Hb.
    destruct (firstCapture (a ++ b) cls md) as [g|] eqn:F; [|reflexivity].
    apply firstCapture_includes, includes_suffix in F. congruence. }
  rewrite (N "Input " "Tokens | " _ Ht), (N "Output " "Tokens | " _ Ht),
    (N "Total " "Tokens | " _ Ht), (N "Estimated " "Cost (USD)** | **$" _ Hc).
  reflexivity.
Qed.

(** ** The configuration *)

Lemma checkRequired_key (env : string -> option string) :
  checkRequired env ["OPENAI_API_KEY"]
  = match env "OPENAI_API_KEY" with
    | Some (String _ _) => Ok tt
    | _ => Throw "Missing required environment variable: OPENAI_API_KEY"
    end.
Proof.
  cbn [checkRequired]. destruct (env "OPENAI_API_KEY") as [[|c k]|]; reflexivity.
Qed.

(** X17. The configuration loads exactly when [OPENAI_API_KEY] is set and
    not empty; otherwise the error names the variable. *)
Theorem loadConfig_failures (rt : Runtime) (env : string -> option string)
  (argv : list string) :
  returns (loadConfig rt env argv)
  = match env "OPENAI_API_KEY" with
    | Some key => nonEmpty key
    | None => false
    end
  /\ (returns (loadConfig rt env argv) = false ->
      loadConfig rt env argv
      = Throw "Missing required environment variable: OPENAI_API_KEY").
Proof.
  unfold loadConfig. rewrite checkRequired_key.
  destruct (env "OPENAI_API_KEY") as [[|c k]|]; cbn [bind returns];
    split; try reflexivity; discriminate.
Qed.

Lemma nonFlagArgs_flag (node script flag : string) (before after : list string) :
  String.prefix "-" flag = true ->
  nonFlagArgs (node :: script :: before ++ flag :: after)
  = nonFlagArgs (node :: script :: before ++ after).
Proof.
  intro H. unfold nonFlagArgs. cbn [skipn].
  rewrite !filter_app. cbn [filter]. now rewrite H.
Qed.

(** X18. Flags never reach the configuration: an argument that starts with
    [-], such as [-r] or [--regenerate-md], can be added anywhere on the
    command line without changing the configuration that is loaded; and a
    schema file taken from the command line never starts with [-]. *)
Theorem flags_do_not_configure (rt : Runtime) (env : string -> option string)
  (node script flag : string) (before after : list string) :
  String.prefix "-" flag = true ->
  loadConfig rt env (node :: script :: before ++ flag :: after)
  = loadConfig rt env (node :: script :: before ++ after)
  /\ (selectSchemaFile env (node :: script :: before ++ flag :: after)
      = env "SCHEMA_FILE"
      \/ exists file,
           selectSchemaFile env (node :: script :: before ++ flag :: after)
           = Some file
           /\ String.prefix "-" file = false
           /\ In file (before ++ after)).
Proof.
  intro H. split.
  - unfold loadConfig, selectSchemaFile. now rewrite nonFlagArgs_flag.
  - unfold selectSchemaFile. rewrite nonFlagArgs_flag by exact H.
    destruct (nonFlagArgs _) as [|[|c file] rest] eqn:E; [now left..|].
    right. exists (String c file). split; [reflexivity|].
    assert (Hin : In (String c file)
                    (nonFlagArgs (node :: script :: before ++ after))).
    { rewrite E. now left. }
    unfold nonFlagArgs in Hin. cbn [skipn] in Hin.
    apply filter_In in Hin. destruct Hin as [Hin Hp].
    split; [now apply negb_true_iff in Hp | exact Hin].
Qed.

(** X19. Schema files never switch the mode: an argument that does not
    start with [-] can be added anywhere on the command line without
    changing whether only the Markdown is regenerated. *)
Theorem arguments_do_not_switch_mode (node script file : string)
  (before after : list string) :
  String.prefix "-" file = false ->
  regenerateOnly (node :: script :: before ++ file :: after)
  = regenerateOnly (node :: script :: before ++ after).
Proof.
  intro H. unfold regenerateOnly. cbn [skipn].
  rewrite !existsb_app. cbn [existsb].
  assert (N : forall flag, String.prefix "-" flag = true ->
                           String.eqb flag file = false).
  { intros flag Hf. apply String.eqb_neq. intros ->. congruence. }
  now rewrite (N "--regenerate-md" eq_refl), (N "-r" eq_refl).
Qed.

Lemma env_or_unsetEmpty (env : string -> option string) (k d : string) :
  env_or (unsetEmpty env k) d = env_or (env k) d.
Proof.
  unfold env_or, unsetEmpty. destruct (env k) as [[|c s]|]; reflexivity.
Qed.

(** X20. An empty environment variable counts as unset: the configuration
    loads from an environment exactly when it loads from the same
    environment with its empty variables removed, every setting but the
    schema file is the same, and main goes on with the same schema file or
    stops for the lack of one in both cases. *)
Theorem empty_variables_are_unset (rt : Runtime)
  (env : string -> option string) (argv : list string) :
  match loadConfig rt env argv, loadConfig rt (unsetEmpty env) argv with
  | Ok c, Ok c' =>
      settings c = settings c'
      /\ configuredSchemaFile c = configuredSchemaFile c'
  | Throw e, Throw e' => e = e'
  | _, _ => False
  end.
Proof.
  unfold loadConfig. rewrite !checkRequired_key.
  unfold settings, configuredSchemaFile.
  assert (K : unsetEmpty env "OPENAI_API_KEY"
              = match env "OPENAI_API_KEY" with
                | Some (String c k) => Some (String c k)
                | _ => None
                end) by reflexivity.
  rewrite K.
  destruct (env "OPENAI_API_KEY") as [[|c k]|] eqn:Ek; cbn [bind];
    try reflexivity.
  cbn [openaiApiKey pdfsDirectory outputBaseDirectory imageDensity imageFormat
       imageQuality gptModel maxTokens schemaFile].
  rewrite !env_or_unsetEmpty. split; [reflexivity|].
  unfold selectSchemaFile.
  destruct (nonFlagArgs argv) as [|[|a file] rest];
    unfold unsetEmpty; destruct (env "SCHEMA_FILE") as [[|d s]|]; reflexivity.
Qed.

End Extractor.

Arguments JNull {number}.
Arguments JBool {number} b.
Arguments JNum {number} n.
Arguments JStr {number} s.
Arguments JArr {number} xs.
Arguments JObj {number} o.

(** * The development at the integers *)

(** ** The scenarios of the specification *)

Example authors_scenario :
  buildFirstPageJsonSchema Z Z_truthy (authorsSchema Z)
  = Ok (responseFormat Z (authorsNormalized Z)).
Proof. reflexivity. Qed.

Example title_scenario :
  generateFirstPageMarkdown Z Z_truthy Z_to_string
    [("title", JStr "X"); ("bulletPoints", JArr [])] None (Some []) None
  = Ok ["# X"; ""].
Proof. reflexivity. Qed.

Example first_page_scenario :
  generateFirstPageMarkdown Z Z_truthy Z_to_string
    [("reportTitle", JStr "Outlook"); ("reportSubTitle", JStr "Q3");
     ("rating", JStr "Buy")]
    (Some [{| author_name := "A. Smith"; email := "a@x.io"; phone := "" |}])
    (Some ["Margins up"])
    (Some [{| heading := ""; content := "Steady quarter." |}])
  = Ok ["# Outlook"; ""; "## Q3"; "";
        "| Field | Value |"; "|-------|-------|"; "| Rating | Buy |"; "";
        "## Authors"; ""; "- **A. Smith**"; "  - Email: a@x.io"; "";
        "## Key Highlights"; ""; "- Margins up"; "";
        "## Summary"; ""; "Steady quarter."; ""].
Proof. reflexivity. Qed.

Example blocks_scenario :
  generateInnerPagesMarkdown Z Z_to_string Z.eq_dec
    [block Z "chapter heading" (Value "Intro") (Some 2%Z);
     block Z "bullet level 1" (Value "A") (Some 2%Z)]
  = [""; "Page 2"; "-----------------------------------------"; "";
     "## Intro"; ""; "- A"].
Proof. reflexivity. Qed.

Example metadata_scenario :
  metadataLines Z Z_to_string
    [("rating", JStr "Buy"); ("previousRating", JNull);
     ("upsideDownside", JNum 12%Z); ("analyst", JStr "A. Smith")]
  = Ok ["| Field | Value |"; "|-------|-------|"; "| Rating | Buy |";
        "| Upside Downside | 12% |"; ""].
Proof. reflexivity. Qed.

(** An absent page number between two blocks of one page starts no new
    run. *)
Example absent_page_scenario :
  generateInnerPagesMarkdown Z Z_to_string Z.eq_dec
    [block Z "body text" (Value "a") (Some 3%Z);
     block Z "body text" (Value "b") None;
     block Z "body text" (Value "c") (Some 3%Z)]
  = [""; "Page 3"; "-----------------------------------------"; "";
     "a"; ""; "b"; ""; "c"; ""].
Proof. reflexivity. Qed.

(** ** The schema normalizer *)

(** C1, as stated, fails: a [format] three levels deep survives. *)
Lemma format_survives_at_depth :
  buildFirstPageJsonSchema Z Z_truthy (deepSchema Z)
  = Ok (responseFormat Z (deepNormalized Z))
  /\ has_format_keyword Z (deepNormalized Z) = true.
Proof. split; reflexivity. Qed.

(** The array branch that copies its property keeps the [format] of the
    array node, where the leaf branch deletes it. *)
Lemma array_without_item_properties_keeps_format :
  buildFirstPageJsonSchema Z Z_truthy (tagsSchema Z)
  = Ok (responseFormat Z (tagsNormalized Z))
  /\ has_format_keyword Z (tagsNormalized Z) = true.
Proof. split; reflexivity. Qed.

Lemma no_format_in_built_nodes_witness :
  wf_json Z (firstPageSchema Z (authorsSchema Z)) = true
  /\ buildFirstPageJsonSchema Z Z_truthy (authorsSchema Z)
     = Ok (responseFormat Z (authorsNormalized Z))
  /\ own_format Z (authorsNormalized Z) = false.
Proof.
  split; [reflexivity|]. split; [reflexivity|].
  exact (proj1 (no_format_in_built_nodes Z Z_truthy (authorsSchema Z)
                  (authorsNormalized Z) eq_refl eq_refl)).
Defined.





(** C7, as stated, fails: a property declared as [null] makes the
    normalizer throw. *)
Lemma null_property_throws :
  buildFirstPageJsonSchema Z Z_truthy (nullPropertySchema Z)
  = Throw "TypeError: Cannot read properties of null (reading 'type')".
Proof. reflexivity. Qed.

Lemma normalization_returns_witness :
  is_null Z (firstPageSchema Z (emptySchema Z)) = false
  /\ returns (buildFirstPageJsonSchema Z Z_truthy (emptySchema Z)) = true
  /\ buildFirstPageJsonSchema Z Z_truthy (emptySchema Z)
     = Ok (responseFormat Z (strictObject Z [] [])).
Proof.
  split; [reflexivity|]. split.
  - exact (proj1 (normalization_returns Z Z_truthy (emptySchema Z) eq_refl)).
  - exact (proj1 (proj2 (normalization_returns Z Z_truthy (emptySchema Z) eq_refl))
             eq_refl).
Defined.

(** ** The prompt synthesizer *)

Lemma prompt_synthesis_witness :
  is_null Z (firstPageSchema Z (authorsSchema Z)) = false
  /\ generateFirstPagePrompt Z Z_truthy (firstPageSchema Z (authorsSchema Z))
       "asia_sector_2024"
     = Ok (promptTemplate "sector" "- authors").
Proof.
  split; [reflexivity|].
  exact (eq_trans
           (proj1 (prompt_synthesis Z Z_truthy
                     (firstPageSchema Z (authorsSchema Z))
                     "asia_sector_2024" eq_refl))
           eq_refl).
Defined.

(** ** The renderers *)



Lemma table_rows_witness :
  style Z (tableBlock Z sampleTable) = "table"
  /\ table Z (tableBlock Z sampleTable) = Value sampleTable
  /\ generateInnerPagesMarkdown Z Z_to_string Z.eq_dec
       ([block Z "chapter heading" (Value "Results") (Some 2%Z)]
        ++ tableBlock Z sampleTable
        :: [block Z "body text" (Value "End.") (Some 3%Z)])
     = [""; "Page 2"; "-----------------------------------------"; "";
        "## Results"; "";
        "| Year | Revenue | EPS |";
        "| --- | --- | --- |";
        "| 2023 | 10 | 1.2 |";
        "| 2024 |";
        "| 2025 | 12 | 1.5 | n/a |";
        "";
        ""; "Page 3"; "-----------------------------------------"; "";
        "End."; ""].
Proof.
  split; [reflexivity|]. split; [reflexivity|].
  exact (eq_trans
           (table_rows Z Z_to_string Z.eq_dec
              [block Z "chapter heading" (Value "Results") (Some 2%Z)]
              [block Z "body text" (Value "End.") (Some 3%Z)]
              (tableBlock Z sampleTable) sampleTable eq_refl eq_refl)
           eq_refl).
Defined.

Lemma missing_text_witness :
  text_missing Z (block Z "chapter heading" Null (Some 2%Z)) = true
  /\ generateInnerPagesMarkdown Z Z_to_string Z.eq_dec
       ([block Z "body text" (Value "Before.") (Some 2%Z)]
        ++ block Z "chapter heading" Null (Some 2%Z)
        :: [block Z "body text" (Value "After.") (Some 2%Z)])
     = [""; "Page 2"; "-----------------------------------------"; "";
        "Before."; ""; "## "; ""; "After."; ""]
  /\ text_missing Z (block Z "sidebar" Undefined (Some 4%Z)) = true
  /\ generateInnerPagesMarkdown Z Z_to_string Z.eq_dec
       ([] ++ block Z "sidebar" Undefined (Some 4%Z) :: [])
     = [""; "Page 4"; "-----------------------------------------"; ""].
Proof.
  split; [reflexivity|]. split; [|split; [reflexivity|]].
  - exact (eq_trans
             (proj1 (proj1 (missing_text Z Z_to_string Z.eq_dec
                              [block Z "body text" (Value "Before.") (Some 2%Z)]
                              [block Z "body text" (Value "After.") (Some 2%Z)]
                              (block Z "chapter heading" Null (Some 2%Z))
                              eq_refl)
                       ["## "; ""] (or_introl eq_refl)))
             eq_refl).
  - refine (eq_trans
              (proj2 (missing_text Z Z_to_string Z.eq_dec [] []
                        (block Z "sidebar" Undefined (Some 4%Z)) eq_refl) _)
              eq_refl).
    simpl. intuition discriminate.
Defined.

(** * The rest of the program at the integers *)

Abbreviation Z_runtime := (sampleRuntime Z Z_to_string Z.of_nat Z.add Z_of_string).

Abbreviation Z_usage i o := (sampleUsage Z i o Z.add).

(** ** Loading a schema *)

Lemma loadSchema_definition_witness :
  exists d,
    loadSchema Z Z_truthy Z_runtime "stock_report.json" (Ok (authorsDocument Z))
    = Ok d
    /\ name Z d = "stock_report.json"
    /\ generateFirstPagePrompt Z Z_truthy (firstPageSchema Z d) (name Z d)
       = Ok (firstPagePrompt Z d).
Proof.
  eexists. split; [reflexivity|].
  split.
  - exact (proj1 (loadSchema_definition Z Z_truthy Z_runtime "stock_report.json"
                    (authorsDocument Z) _ eq_refl)).
  - exact (proj1 (proj2 (proj2 (proj2
             (loadSchema_definition Z Z_truthy Z_runtime "stock_report.json"
                (authorsDocument Z) _ eq_refl))))).
Defined.

Lemma loadSchema_without_firstPage_witness :
  is_null Z (JObj [("title", JStr "Schemas")]) = false
  /\ exists d,
       loadSchema Z Z_truthy Z_runtime "sector_report.json"
         (Ok (JObj [("title", JStr "Schemas")]))
       = Ok d
       /\ buildFirstPageJsonSchema Z Z_truthy d
          = Ok (responseFormat Z (strictObject Z [] [])).
Proof.
  split; [reflexivity|].
  destruct (loadSchema_without_firstPage Z Z_truthy Z_runtime
              "sector_report.json" (JObj [("title", JStr "Schemas")])
              eq_refl eq_refl) as (d & Hd & _ & _ & Hb).
  exists d. split; assumption.
Defined.

Lemma prompt_lists_required_fields_witness :
  wf_json Z (firstPageSchema Z (describedSchema Z)) = true
  /\ buildFirstPageJsonSchema Z Z_truthy (describedSchema Z)
     = Ok (responseFormat Z (describedNormalized Z))
  /\ exists fields,
       member Z (describedNormalized Z) "required" = Some (JArr (map JStr fields))
       /\ generateFirstPagePrompt Z Z_truthy
            (firstPageSchema Z (describedSchema Z)) "stock_report"
          = Ok (promptTemplate (reportTypeLabel "stock_report")
                  (join nl (map (String.append "- ") fields))).
Proof.
  split; [reflexivity|]. split; [reflexivity|].
  exact (prompt_lists_required_fields Z Z_truthy (describedSchema Z)
           "stock_report" (describedNormalized Z) eq_refl eq_refl).
Defined.

(** ** What the normalizer keeps and what it drops *)

Lemma copied_properties_witness :
  exists props v,
    member Z (describedNormalized Z) "properties" = Some (JObj props)
    /\ lookup Z "reportDate" props = Some v
    /\ Object_entries Z v
       = [("type", JStr "string"); ("description", JStr "Publication date")].
Proof.
  destruct (copied_properties Z Z_truthy (describedSchema Z)
              (describedNormalized Z) "reportDate"
              (JObj [("type", JStr "string"); ("format", JStr "date");
                     ("description", JStr "Publication date")])
              eq_refl eq_refl (or_introl eq_refl)
              ltac:(discriminate) (or_introl eq_refl))
    as (props & v & Hp & Hl & Hcopy & _).
  exists props, v. split; [exact Hp|]. split; [exact Hl|].
  injection Hp as <-. injection Hl as <-. reflexivity.
Defined.

Lemma rebuilt_properties_witness :
  exists props v,
    member Z (describedNormalized Z) "properties" = Some (JObj props)
    /\ lookup Z "company" props = Some v
    /\ Object_keys Z v
       = ["type"; "properties"; "required"; "additionalProperties"].
Proof.
  destruct (rebuilt_properties Z Z_truthy (describedSchema Z)
              (describedNormalized Z) "company"
              (JObj [("type", JStr "object"); ("description", JStr "Issuer");
                     ("properties",
                      JObj [("ticker",
                             JObj [("type", JStr "string");
                                   ("format", JStr "ticker");
                                   ("maxLength", JStr "8")])])])
              eq_refl eq_refl (or_intror (or_intror (or_introl eq_refl)))
              ltac:(discriminate))
    as (props & v & Hp & Hl & Hobj & _).
  exists props, v. split; [exact Hp|]. split; [exact Hl|].
  exact (proj1 (Hobj _ eq_refl eq_refl)).
Defined.

(** ** The renderers *)

Lemma metadata_ignores_other_fields_witness :
  metadataLines Z Z_to_string
    [("analyst", JStr "A. Smith"); ("rating", JStr "Buy")]
  = metadataLines Z Z_to_string
      [("rating", JStr "Buy"); ("pages", JNum 12%Z)].
Proof.
  apply (metadata_ignores_other_fields Z Z_to_string
           [("analyst", JStr "A. Smith"); ("rating", JStr "Buy")]
           [("rating", JStr "Buy"); ("pages", JNum 12%Z)]).
  intros field Hin. simpl in Hin.
  repeat (destruct Hin as [<- | Hin]; [reflexivity|]). contradiction.
Defined.

(** ** The extraction of a report *)

(** Five pages: page 3 fails and page 4 is blank. *)
Abbreviation Z_extraction :=
  (extractReport (Image := unit) Z Z_to_string Z_runtime
     (sampleFirstPage Z (Z_usage 1%Z 2%Z))
     (sampleInnerPage Z (Z_usage 10%Z 20%Z)
        "out/r.pdf/pages/3.png" "out/r.pdf/pages/4.png")
     "out" "r.pdf" (Ok [tt; tt; tt; tt; tt])).

Lemma extraction_result_witness :
  exists report usage,
    Z_extraction = Ok (report, usage)
    /\ usage
       = {| inputTokens := 31%Z; outputTokens := 62%Z; totalTokens := 93%Z |}
    /\ map (pageNumber Z) (innerPagesParagraphs Z report)
       = [Some 2%Z; Some 2%Z; Some 5%Z; Some 5%Z].
Proof.
  eexists. eexists. split; [reflexivity|].
  destruct (extraction_result Z Z_to_string Z_runtime _ _ _ _ _ _ _
              (eq_refl : Z_extraction = Ok _))
    as (first & Hf & _ & Hb & Hu & _).
  split.
  - rewrite Hu. injection Hf as <-. reflexivity.
  - reflexivity.
Defined.

Lemma extracted_blocks_are_numbered_witness :
  exists report usage,
    Z_extraction = Ok (report, usage)
    /\ Forall
         (fun b =>
            exists k analysis p,
              (2 <= k <= 5)%nat
              /\ sampleInnerPage Z (Z_usage 10%Z 20%Z)
                   "out/r.pdf/pages/3.png" "out/r.pdf/pages/4.png"
                   (String.concat "/"
                      ["out/r.pdf/pages"; Z_to_string (Z.of_nat k) ++ ".png"])
                   (Z.of_nat k)
                 = Ok analysis
              /\ In p (paragraphs Z analysis)
              /\ style Z b = style Z p /\ text Z b = text Z p
              /\ table Z b = table Z p
              /\ pageNumber Z b = Some (Z.of_nat k))
         (innerPagesParagraphs Z report).
Proof.
  eexists. eexists. split; [reflexivity|].
  exact (extracted_blocks_are_numbered Z Z_to_string Z_runtime _ _ _ _ _ _ _
           (eq_refl : Z_extraction = Ok _)).
Defined.

Lemma one_marker_per_extracted_page_witness :
  exists report usage,
    Z_extraction = Ok (report, usage)
    /\ emitted Z (markers Z Z.eq_dec None (innerPagesParagraphs Z report))
       = [2%Z; 5%Z].
Proof.
  eexists. eexists. split; [reflexivity|].
  exact (proj1 (proj2
           (one_marker_per_extracted_page Z Z_to_string Z.eq_dec Z_runtime
              _ _ _ _ _ _ _ Nat2Z.inj (eq_refl : Z_extraction = Ok _)))).
Defined.

(** ** The statistics table and its recovery *)


Lemma regeneration_is_stable_witness :
  exists md,
    generateMarkdown Z Z_truthy Z_to_string Z.eq_dec Z_runtime
      (sampleReport Z) None None None "stock_report"
      (Z_usage 12345%Z 678%Z) 3%Z
    = Ok md
    /\ regenerateMarkdown Z Z_truthy Z_to_string Z.eq_dec Z_runtime
         (sampleReport Z) None None None "stock_report" (Some md)
       = Ok md.
Proof.
  eexists. split; [reflexivity|].
  exact (regeneration_is_stable Z Z_truthy Z_to_string Z.eq_dec Z_runtime
           (sampleReport Z) None None None "stock_report"
           (Z_usage 12345%Z 678%Z) 3%Z
           eq_refl eq_refl eq_refl eq_refl eq_refl
           eq_refl eq_refl eq_refl eq_refl).
Defined.

Lemma statistics_default_to_zero_witness :
  recoverStatistics Z Z_runtime (Some "# Notes written by hand")
  = (zeroUsage Z Z_runtime, 0%Z).
Proof.
  exact (statistics_default_to_zero Z Z_runtime
           (Some "# Notes written by hand") (conj eq_refl eq_refl)).
Defined.

(** ** The configuration *)

Lemma flags_do_not_configure_witness :
  loadConfig Z Z_runtime sampleEnv
    ["node"; "index.js"; "-r"; "sector_report.json"]
  = loadConfig Z Z_runtime sampleEnv ["node"; "index.js"; "sector_report.json"].
Proof.
  exact (proj1 (flags_do_not_configure Z Z_runtime sampleEnv
                  "node" "index.js" "-r" [] ["sector_report.json"] eq_refl)).
Defined.

Lemma arguments_do_not_switch_mode_witness :
  regenerateOnly ["node"; "index.js"; "sector_report.json"; "-r"] = true.
Proof.
  exact (eq_trans
           (arguments_do_not_switch_mode "node" "index.js" "sector_report.json"
              [] ["-r"] eq_refl)
           eq_refl).
Defined.
